(** * Order-to-holdings reconciliation of the Nivesh Copilot backend

    A shallow embedding of the order and holdings handlers of the Express
    server ([updateHoldings], [POST /newOrder], [POST /order/:id/confirm],
    [POST /order/:id/reject], [GET /repair-holdings], [GET /repair-orders],
    [GET /seedHoldings], [DELETE /order/:id], [DELETE /orders/cleanup]),
    of the checks and totals the dashboard computes from their answers,
    and the properties the specification states about them.

    Modelling choices.
    - A JavaScript [Number] is embedded as a rational of [Q]: the handlers
      only add, subtract, multiply, divide and compare with zero.  The
      rationals are exact and unbounded: rounding and overflow of IEEE
      doubles are outside the embedding.  The one [NaN] the handlers
      compute from finite numbers, the average cost 0/0 of a BUY that
      cancels a holding whose cost it cancels too, is modelled: Mongoose
      refuses to save it and [updateHoldings] throws.  A quotient x/0
      with x not zero is an infinity in JavaScript and is saved; the
      embedding saves the holding too, and its average cost is only read
      where the divisor is not zero.
    - A JavaScript string is a [string] of bytes; [toUpperCase] and
      [toLowerCase] act on the ASCII letters.
    - A MongoDB collection is the list of its documents in insertion
      order.  [findOne] and [deleteOne] act on the first document that
      matches and [save] on an existing document rewrites it in place, so
      collections that hold several documents with one name are covered.
    - The [name] of an order may be absent ([undefined] or [null]):
      [POST /newOrder] stores what the body has.  The other fields of a
      document are present (an absent [qty], [price] or [mode] fails the
      tests of the handlers as 0 or the empty string does); the [qty] and
      [price] of a request body are JSON numbers, which Mongoose stores
      as they are.
    - A handler is a function from the database to the next database and
      the HTTP response. *)

From Stdlib Require Import List String Ascii Bool Arith Lia ZArith QArith Qabs Lqa.
Import ListNotations.

Local Open Scope string_scope.
Local Open Scope Q_scope.

(** ** JavaScript values *)

Module Js.

Definition upperChar (c : ascii) : ascii :=
  let n := nat_of_ascii c in
  if ((97 <=? n) && (n <=? 122))%nat then ascii_of_nat (n - 32) else c.

Definition lowerChar (c : ascii) : ascii :=
  let n := nat_of_ascii c in
  if ((65 <=? n) && (n <=? 90))%nat then ascii_of_nat (n + 32) else c.

Fixpoint toUpperCase (s : string) : string :=
  match s with
  | EmptyString => EmptyString
  | String c r => String (upperChar c) (toUpperCase r)
  end.

Fixpoint toLowerCase (s : string) : string :=
  match s with
  | EmptyString => EmptyString
  | String c r => String (lowerChar c) (toLowerCase r)
  end.

(** [!s] on a string: only the empty string is falsy. *)
Definition notStr (s : string) : bool := (s =? "")%string.

(** [!n] on a number: only zero is falsy. *)
Definition notNum (n : Q) : bool := Qeq_bool n 0.

(** A string that may be absent, passed to a function that tests it with
    [!s] before any other use: [undefined] and [null] are falsy like the
    empty string. *)
Definition orEmpty (s : option string) : string :=
  match s with
  | Some x => x
  | None => ""
  end.

(** [Number.MAX_VALUE], the largest finite double. *)
Definition MAX_VALUE : Q := inject_Z (2 ^ 1024 - 2 ^ 971).

(** The exact value of an operation lies within the finite doubles, so
    that the operation does not overflow to an infinity. *)
Definition inRange (x : Q) : Prop := Qabs x <= MAX_VALUE.

(** The regular expression [/^buy$/i]: exactly three characters that
    canonicalize (upper case) to B, U, Y. *)
Definition regexBuyI (s : string) : bool :=
  match s with
  | String c1 (String c2 (String c3 EmptyString)) =>
      Ascii.eqb (upperChar c1) "B" && Ascii.eqb (upperChar c2) "U"
      && Ascii.eqb (upperChar c3) "Y"
  | _ => false
  end.

End Js.

(** ** Exceptions *)

Inductive error : Type :=
| InvalidParameters               (* Error("Invalid parameters: ...") *)
| InvalidMode (mode : string)     (* Error("Invalid mode: ...") *)
| ValidationError                 (* save() of a document with a NaN field *)
| TypeError.                      (* a method called on undefined *)

Inductive result (A : Type) : Type :=
| Ok (a : A)
| Throw (e : error).
Arguments Ok {A} a.
Arguments Throw {A} e.

(** ** Documents *)

Module Holding.
Record t : Type := mk
  { name : string; qty : Q; avg : Q; price : Q; net : string; day : string }.

Definition setQty (q : Q) (h : t) : t :=
  {| name := name h; qty := q; avg := avg h; price := price h;
     net := net h; day := day h |}.
Definition setAvg (a : Q) (h : t) : t :=
  {| name := name h; qty := qty h; avg := a; price := price h;
     net := net h; day := day h |}.
Definition setPrice (p : Q) (h : t) : t :=
  {| name := name h; qty := qty h; avg := avg h; price := p;
     net := net h; day := day h |}.
End Holding.

(** ** The holdings collection *)

Module HoldingsModel.

Definition coll : Type := list Holding.t.

(** [findOne({ name })]: the first document with that name. *)
Fixpoint findOne (n : string) (hs : coll) : option Holding.t :=
  match hs with
  | [] => None
  | h :: r => if (Holding.name h =? n)%string then Some h else findOne n r
  end.

(** [doc.save()] on the document [findOne({ name })] returned. *)
Fixpoint save (n : string) (h' : Holding.t) (hs : coll) : coll :=
  match hs with
  | [] => []
  | h :: r =>
      if (Holding.name h =? n)%string then h' :: r else h :: save n h' r
  end.

(** [new HoldingsModel(h).save()]: a new document. *)
Definition create (h : Holding.t) (hs : coll) : coll := (hs ++ [h])%list.

(** [deleteOne({ name })]: removes the first document with that name. *)
Fixpoint deleteOne (n : string) (hs : coll) : coll :=
  match hs with
  | [] => []
  | h :: r => if (Holding.name h =? n)%string then r else h :: deleteOne n r
  end.

End HoldingsModel.

(** ** updateHoldings *)

(** What [updateHoldings] logs and returns on the paths that do not throw. *)
Inductive outcome : Type :=
| UpdatedHolding (h : Holding.t)    (* buy, holding exists: returns it *)
| CreatedHolding (h : Holding.t)    (* buy, new holding: returns it *)
| RemovedHolding                    (* sell, nothing left: returns null *)
| ReducedHolding (h : Holding.t)    (* sell, some left: returns it *)
| WarnedNoHolding.                  (* sell, no holding: console.warn, null *)

Definition returned (o : outcome) : option Holding.t :=
  match o with
  | UpdatedHolding h | CreatedHolding h | ReducedHolding h => Some h
  | RemovedHolding | WarnedNoHolding => None
  end.

Definition updateHoldings (hs : HoldingsModel.coll)
    (name : string) (qty price : Q) (mode : string)
  : result (HoldingsModel.coll * outcome) :=
  if Js.notStr name || Js.notNum qty || Js.notNum price || Js.notStr mode
  then Throw InvalidParameters
  else
    let stockName := Js.toUpperCase name in
    let orderMode := Js.toLowerCase mode in
    if (orderMode =? "buy")%string then
      match HoldingsModel.findOne stockName hs with
      | Some existingHolding =>
          let totalQty := Holding.qty existingHolding + qty in
          let totalCost :=
            Holding.avg existingHolding * Holding.qty existingHolding
            + price * qty in
          let newAvg := totalCost / totalQty in
          let h' :=
            Holding.setPrice price
              (Holding.setAvg newAvg
                 (Holding.setQty totalQty existingHolding)) in
          if Qeq_bool totalQty 0 && Qeq_bool totalCost 0
          then Throw ValidationError   (* newAvg is NaN: save() rejects *)
          else Ok (HoldingsModel.save stockName h' hs, UpdatedHolding h')
      | None =>
          let newHolding :=
            {| Holding.name := stockName; Holding.qty := qty;
               Holding.avg := price; Holding.price := price;
               Holding.net := "0%"; Holding.day := "0%" |} in
          Ok (HoldingsModel.create newHolding hs, CreatedHolding newHolding)
      end
    else if (orderMode =? "sell")%string then
      match HoldingsModel.findOne stockName hs with
      | Some existingHolding =>
          let h' :=
            Holding.setQty (Holding.qty existingHolding - qty)
              existingHolding in
          if Qle_bool (Holding.qty h') 0
          then Ok (HoldingsModel.deleteOne stockName hs, RemovedHolding)
          else Ok (HoldingsModel.save stockName h' hs, ReducedHolding h')
      | None => Ok (hs, WarnedNoHolding)
      end
    else Throw (InvalidMode mode).

(** ** Orders *)

(** The three values the handlers give to the [status] string. *)
Inductive orderStatus : Type :=
| Pending     (* "pending" *)
| Executed    (* "executed" *)
| Rejected.   (* "rejected" *)

Definition status_eqb (a b : orderStatus) : bool :=
  match a, b with
  | Pending, Pending | Executed, Executed | Rejected, Rejected => true
  | _, _ => false
  end.

Module Order.
(** [name] is [None] when the document has no name ([undefined] or
    [null]). *)
Record t : Type := mk
  { _id : nat; name : option string; qty : Q; price : Q; mode : string;
    is_voice_order : bool; is_simulated : bool; status : orderStatus }.

Definition setStatus (s : orderStatus) (o : t) : t :=
  {| _id := _id o; name := name o; qty := qty o; price := price o;
     mode := mode o; is_voice_order := is_voice_order o;
     is_simulated := is_simulated o; status := s |}.
End Order.

Module OrdersModel.

Definition coll : Type := list Order.t.

(** [findById(id)] *)
Fixpoint findById (id : nat) (os : coll) : option Order.t :=
  match os with
  | [] => None
  | o :: r => if (Order._id o =? id)%nat then Some o else findById id r
  end.

(** [order.save()] on a document [findById] returned: rewritten in place. *)
Fixpoint save (o' : Order.t) (os : coll) : coll :=
  match os with
  | [] => []
  | o :: r =>
      if (Order._id o =? Order._id o')%nat then o' :: r else o :: save o' r
  end.

(** [new OrdersModel(o).save()]: a new document. *)
Definition create (o : Order.t) (os : coll) : coll := (os ++ [o])%list.

(** [find({ status: "executed", mode: { $regex: /^buy$/i } })] *)
Definition findExecutedBuy (os : coll) : coll :=
  filter (fun o => status_eqb (Order.status o) Executed
                   && Js.regexBuyI (Order.mode o)) os.

End OrdersModel.

(** ** The database: both collections and the next fresh order id *)

Record Db : Type := mkDb
  { holdings : HoldingsModel.coll;
    orders : OrdersModel.coll;
    nextId : nat }.

Definition withHoldings (hs : HoldingsModel.coll) (db : Db) : Db :=
  {| holdings := hs; orders := orders db; nextId := nextId db |}.

Definition withOrders (os : OrdersModel.coll) (db : Db) : Db :=
  {| holdings := holdings db; orders := os; nextId := nextId db |}.

(** ** POST /newOrder *)

(** The body of the request; [b_name] is [None] when the body has no
    name.  [b_qty] and [b_price] are JSON numbers: the values the handler
    passes on to [updateHoldings] and the values Mongoose stores in the
    order are then the same. *)
Record newOrderBody : Type := mkBody
  { b_name : option string; b_qty : Q; b_price : Q; b_mode : string;
    b_is_voice_order : bool; b_is_simulated : bool }.

Inductive newOrderResponse : Type :=
| OrderPlaced (order : Order.t) (needsConfirmation : bool)
    (* 200, "Order placed..." *)
| OrderPlacedHoldingsFailed (order : Order.t).
    (* 500, "Order placed but holdings update failed", with the warning *)

Definition newOrder (body : newOrderBody) (db : Db) : Db * newOrderResponse :=
  let needsConfirmation := b_is_voice_order body || b_is_simulated body in
  let newOrder :=
    {| Order._id := nextId db;
       Order.name := b_name body; Order.qty := b_qty body;
       Order.price := b_price body; Order.mode := b_mode body;
       Order.is_voice_order := b_is_voice_order body || false;
       Order.is_simulated := b_is_simulated body || false;
       Order.status := if needsConfirmation then Pending else Executed |} in
  let db1 :=
    {| holdings := holdings db;
       orders := OrdersModel.create newOrder (orders db);
       nextId := S (nextId db) |} in
  if negb needsConfirmation then
    match updateHoldings (holdings db1) (Js.orEmpty (b_name body))
            (b_qty body) (b_price body) (b_mode body) with
    | Ok (hs', _) => (withHoldings hs' db1, OrderPlaced newOrder needsConfirmation)
    | Throw _ => (db1, OrderPlacedHoldingsFailed newOrder)
    end
  else (db1, OrderPlaced newOrder needsConfirmation).

(** ** POST /order/:id/confirm *)

Inductive confirmResponse : Type :=
| ConfirmNotFound                       (* 404, "Order not found" *)
| ConfirmAlreadyExecuted                (* 400, "Order already executed" *)
| ConfirmHoldingMissing (order : Order.t)
    (* 500, "Order confirmed but holdings creation failed..." *)
| ConfirmHoldingsFailed (details : error) (order : Order.t)
    (* 500, "Failed to update holdings" *)
| Confirmed (order : Order.t).          (* 200, "Order confirmed and executed!" *)

(** The end of the handler: [order.status = "executed"; order.save()]. *)
Definition markExecuted (order : Order.t) (db : Db) : Db * confirmResponse :=
  let order' := Order.setStatus Executed order in
  (withOrders (OrdersModel.save order' (orders db)) db, Confirmed order').

Definition confirmOrder (id : nat) (db : Db) : Db * confirmResponse :=
  match OrdersModel.findById id (orders db) with
  | None => (db, ConfirmNotFound)
  | Some order =>
      if status_eqb (Order.status order) Executed
      then (db, ConfirmAlreadyExecuted)
      else
        match updateHoldings (holdings db) (Js.orEmpty (Order.name order))
                (Order.qty order) (Order.price order) (Order.mode order) with
        | Throw holdingsError => (db, ConfirmHoldingsFailed holdingsError order)
        | Ok (hs', _) =>
            let db1 := withHoldings hs' db in
            if (Js.toLowerCase (Order.mode order) =? "buy")%string then
              match Order.name order with
              | None =>
                  (* order.name.toUpperCase() throws inside the try *)
                  (db1, ConfirmHoldingsFailed TypeError order)
              | Some n =>
                  match HoldingsModel.findOne (Js.toUpperCase n) hs' with
                  | Some _ => markExecuted order db1
                  | None => (db1, ConfirmHoldingMissing order)
                  end
              end
            else markExecuted order db1
        end
  end.

(** ** POST /order/:id/reject *)

Inductive rejectResponse : Type :=
| RejectNotFound                 (* 404, "Order not found" *)
| RejectExecuted                 (* 400, "Cannot reject executed order" *)
| RejectedOrder (order : Order.t).   (* 200, "Order rejected" *)

Definition rejectOrder (id : nat) (db : Db) : Db * rejectResponse :=
  match OrdersModel.findById id (orders db) with
  | None => (db, RejectNotFound)
  | Some order =>
      if status_eqb (Order.status order) Executed
      then (db, RejectExecuted)
      else
        let order' := Order.setStatus Rejected order in
        (withOrders (OrdersModel.save order' (orders db)) db,
         RejectedOrder order')
  end.

(** ** GET /repair-holdings *)

Inductive missingEntry : Type :=
| FixedEntry (order_id : nat) (stock : string) (qty price : Q)
| FailedEntry (order_id : nat) (stock : string) (err : error).

Record repairLoop : Type := mkLoop
  { l_holdings : HoldingsModel.coll;
    l_fixed : nat;
    l_missing : list missingEntry }.

(** One iteration of [for (const order of executedBuyOrders)].  The
    lookup [findOne({ name: order.name.toUpperCase() })] stands outside
    the inner [try]: on an order without a name it throws out of the
    loop. *)
Definition repairStep (st : repairLoop) (order : Order.t)
  : result repairLoop :=
  match Order.name order with
  | None => Throw TypeError
  | Some n =>
      match HoldingsModel.findOne (Js.toUpperCase n) (l_holdings st) with
      | Some _ => Ok st
      | None =>
          match updateHoldings (l_holdings st) n
                  (Order.qty order) (Order.price order) (Order.mode order) with
          | Ok (hs', _) =>
              Ok {| l_holdings := hs';
                    l_fixed := S (l_fixed st);
                    l_missing :=
                      (l_missing st
                       ++ [FixedEntry (Order._id order) n
                             (Order.qty order) (Order.price order)])%list |}
          | Throw e =>
              Ok {| l_holdings := l_holdings st;
                    l_fixed := l_fixed st;
                    l_missing :=
                      (l_missing st
                       ++ [FailedEntry (Order._id order) n e])%list |}
          end
      end
  end.

(** The loop: it stops at the first iteration that throws; what the
    iterations before it wrote stays written. *)
Fixpoint repairScan (os : list Order.t) (st : repairLoop)
  : repairLoop * option error :=
  match os with
  | [] => (st, None)
  | order :: rest =>
      match repairStep st order with
      | Ok st' => repairScan rest st'
      | Throw e => (st, Some e)
      end
  end.

Record repairReport : Type := mkRepair
  { fixed : nat; missing : list missingEntry; total_checked : nat }.

Inductive repairResponse : Type :=
| RepairDone (report : repairReport)   (* 200, "Repair complete..." *)
| RepairFailed (details : error).      (* 500, "Failed to repair holdings" *)

(** The report of an answer, when there is one. *)
Definition reportOf (r : repairResponse) : option repairReport :=
  match r with
  | RepairDone report => Some report
  | RepairFailed _ => None
  end.

Definition repairHoldings (db : Db) : Db * repairResponse :=
  let executedBuyOrders := OrdersModel.findExecutedBuy (orders db) in
  let (st, thrown) :=
    repairScan executedBuyOrders
      {| l_holdings := holdings db; l_fixed := 0%nat; l_missing := [] |} in
  (withHoldings (l_holdings st) db,
   match thrown with
   | None =>
       RepairDone {| fixed := l_fixed st; missing := l_missing st;
                     total_checked := List.length executedBuyOrders |}
   | Some e => RepairFailed e
   end).

(** ** The specification's view *)

(** The specification names the source of an order by an [origin]; the
    handler reads it off the two flags of the request body. *)
Inductive origin : Type := MANUAL | VOICE | ASSISTANT.

Definition originOf (body : newOrderBody) : origin :=
  if b_is_voice_order body then VOICE
  else if b_is_simulated body then ASSISTANT
  else MANUAL.

(** The (quantity, averageCost) of the position of an instrument. *)
Definition positionOf (instrument : string) (hs : HoldingsModel.coll)
  : option (Q * Q) :=
  match HoldingsModel.findOne instrument hs with
  | Some h => Some (Holding.qty h, Holding.avg h)
  | None => None
  end.

(** The Position Aggregator applied to one executed order; an order the
    aggregator refuses leaves the positions as they are. *)
Definition aggregate (hs : HoldingsModel.coll) (o : Order.t)
  : HoldingsModel.coll :=
  match updateHoldings hs (Js.orEmpty (Order.name o)) (Order.qty o)
          (Order.price o) (Order.mode o) with
  | Ok (hs', _) => hs'
  | Throw _ => hs
  end.

(** The executed orders of an instrument, in creation order. *)
Definition executedHistory (instrument : string) (os : OrdersModel.coll)
  : OrdersModel.coll :=
  filter (fun o => status_eqb (Order.status o) Executed
                   && match Order.name o with
                      | Some n => (Js.toUpperCase n =? instrument)%string
                      | None => false
                      end) os.

(** The replay the specification describes for [repairMissingPositions]:
    the incremental fold of the instrument's whole executed history from
    the empty state. *)
Definition replayHistory (instrument : string) (os : OrdersModel.coll)
  : HoldingsModel.coll :=
  fold_left aggregate (executedHistory instrument os) [].

(** The two operations on a stored order, and a run of them. *)
Inductive ledgerOp : Type :=
| ConfirmOp (id : nat)
| RejectOp (id : nat).

Definition runOp (db : Db) (op : ledgerOp) : Db :=
  match op with
  | ConfirmOp id => fst (confirmOrder id db)
  | RejectOp id => fst (rejectOrder id db)
  end.

Definition runOps (ops : list ledgerOp) (db : Db) : Db :=
  fold_left runOp ops db.

Definition statusOf (id : nat) (db : Db) : option orderStatus :=
  option_map Order.status (OrdersModel.findById id (orders db)).

(** ** Predicates used by the statements *)

(** The parameters pass [if (!name || !qty || !price || !mode)]. *)
Definition validParams (name : string) (qty price : Q) (mode : string) : Prop :=
  name <> "" /\ ~ qty == 0 /\ ~ price == 0 /\ mode <> "".

(** A BUY of [qty] at [price] into the holding [h] stays within the
    finite doubles and away from 0/0: the new total quantity is not zero
    and no intermediate value of the average overflows. *)
Definition buyComputes (h : Holding.t) (qty price : Q) : Prop :=
  ~ Holding.qty h + qty == 0
  /\ Js.inRange (Holding.qty h + qty)
  /\ Js.inRange (Holding.avg h * Holding.qty h)
  /\ Js.inRange (price * qty)
  /\ Js.inRange (Holding.avg h * Holding.qty h + price * qty)
  /\ Js.inRange ((Holding.avg h * Holding.qty h + price * qty)
                 / (Holding.qty h + qty)).

(** The fields of an order pass the validation of [updateHoldings]; in
    particular the order has a name. *)
Definition orderValid (o : Order.t) : Prop :=
  validParams (Js.orEmpty (Order.name o)) (Order.qty o) (Order.price o)
    (Order.mode o).

(** Every order of the list has a name. *)
Definition allNamed (os : list Order.t) : Prop :=
  Forall (fun o => Order.name o <> None) os.

(** The holding a first BUY of [o] creates. *)
Definition firstHolding (o : Order.t) : Holding.t :=
  {| Holding.name := Js.toUpperCase (Js.orEmpty (Order.name o));
     Holding.qty := Order.qty o;
     Holding.avg := Order.price o;
     Holding.price := Order.price o;
     Holding.net := "0%"; Holding.day := "0%" |}.

(** An order the scan has nothing to do for: its instrument has a holding,
    or its parameters make [updateHoldings] throw. *)
Definition settled (hs : HoldingsModel.coll) (o : Order.t) : Prop :=
  HoldingsModel.findOne (Js.toUpperCase (Js.orEmpty (Order.name o))) hs
  <> None
  \/ ~ orderValid o.

(** Two positions agree: both absent, or equal quantity and average cost. *)
Definition samePosition (p q : option (Q * Q)) : Prop :=
  match p, q with
  | Some (q1, a1), Some (q2, a2) => q1 == q2 /\ a1 == a2
  | None, None => True
  | _, _ => False
  end.

(** The claim of C3 as the specification words it: for an instrument the
    scan meets and whose position is missing, the repaired position is the
    one the replay of its whole executed history builds. *)
Definition repairReplaysHistory : Prop :=
  forall db o n,
    In o (OrdersModel.findExecutedBuy (orders db)) ->
    Order.name o = Some n ->
    HoldingsModel.findOne (Js.toUpperCase n) (holdings db) = None ->
    samePosition
      (positionOf (Js.toUpperCase n) (holdings (fst (repairHoldings db))))
      (positionOf (Js.toUpperCase n)
         (replayHistory (Js.toUpperCase n) (orders db))).

(** The claim of C5 as the specification words it: the first confirm of
    any PENDING order succeeds and leaves the order EXECUTED. *)
Definition firstConfirmExecutes : Prop :=
  forall id db order,
    OrdersModel.findById id (orders db) = Some order ->
    Order.status order = Pending ->
    snd (confirmOrder id db) = Confirmed (Order.setStatus Executed order)
    /\ statusOf id (fst (confirmOrder id db)) = Some Executed.

(** ** GET /seedHoldings *)

Definition initialHoldings : list Holding.t :=
  [ Holding.mk "INFY" 5 1450.50 1625.20 "+12.04%" "+1.73%";
    Holding.mk "TCS" 3 3100.00 3258.50 "+5.11%" "+0.93%";
    Holding.mk "RELIANCE" 2 1480.00 1532.40 "+3.54%" "-0.21%";
    Holding.mk "HDFCBANK" 4 1520.00 1685.30 "+10.87%" "+0.45%";
    Holding.mk "WIPRO" 10 245.00 259.40 "+5.88%" "+0.96%" ].

(** The executed BUY order that [/seedHoldings] and [/repair-orders] write
    for a holding. *)
Definition orderOfHolding (id : nat) (holding : Holding.t) : Order.t :=
  {| Order._id := id;
     Order.name := Some (Js.toUpperCase (Holding.name holding));
     Order.qty := Holding.qty holding;
     Order.price := Holding.avg holding;
     Order.mode := "buy";
     Order.is_voice_order := false;
     Order.is_simulated := false;
     Order.status := Executed |}.

(** One iteration of [for (const holding of initialHoldings)]. *)
Definition seedStep (db : Db) (holding : Holding.t) : Db :=
  {| holdings := HoldingsModel.create holding (holdings db);
     orders := OrdersModel.create (orderOfHolding (nextId db) holding)
                 (orders db);
     nextId := S (nextId db) |}.

Record seedResponse : Type := mkSeed
  { holdings_count : nat; orders_count : nat }.

Definition seedHoldings (db : Db) : Db * seedResponse :=
  let cleared := {| holdings := []; orders := []; nextId := nextId db |} in
  (fold_left seedStep initialHoldings cleared,
   {| holdings_count := List.length initialHoldings;
      orders_count := List.length initialHoldings |}).

(** ** GET /repair-orders *)

(** [OrdersModel.findOne({ name, mode: { $regex: /^buy$/i },
    status: "executed" })] *)
Fixpoint findOneExecutedBuy (n : string) (os : OrdersModel.coll)
  : option Order.t :=
  match os with
  | [] => None
  | o :: r =>
      if match Order.name o with
         | Some m => (m =? n)%string
         | None => false
         end
         && Js.regexBuyI (Order.mode o)
         && status_eqb (Order.status o) Executed
      then Some o
      else findOneExecutedBuy n r
  end.

Record createdEntry : Type := mkCreated
  { c_stock : string; c_qty : Q; c_price : Q; c_order_id : nat }.

Record ordersLoop : Type := mkOrdersLoop
  { o_orders : OrdersModel.coll;
    o_nextId : nat;
    o_created : nat;
    o_createdOrders : list createdEntry }.

(** One iteration of [for (const holding of allHoldings)]. *)
Definition repairOrdersStep (st : ordersLoop) (holding : Holding.t)
  : ordersLoop :=
  match findOneExecutedBuy (Js.toUpperCase (Holding.name holding))
          (o_orders st) with
  | Some _ => st
  | None =>
      let newOrder := orderOfHolding (o_nextId st) holding in
      {| o_orders := OrdersModel.create newOrder (o_orders st);
         o_nextId := S (o_nextId st);
         o_created := S (o_created st);
         o_createdOrders :=
           (o_createdOrders st
            ++ [{| c_stock := Holding.name holding;
                   c_qty := Holding.qty holding;
                   c_price := Holding.avg holding;
                   c_order_id := Order._id newOrder |}])%list |}
  end.

Record repairOrdersResponse : Type := mkRepairOrders
  { created : nat; createdOrders : list createdEntry; total_holdings : nat }.

Definition repairOrders (db : Db) : Db * repairOrdersResponse :=
  let allHoldings := holdings db in
  let st := fold_left repairOrdersStep allHoldings
              {| o_orders := orders db; o_nextId := nextId db;
                 o_created := 0%nat; o_createdOrders := [] |} in
  ({| holdings := holdings db; orders := o_orders st;
      nextId := o_nextId st |},
   {| created := o_created st; createdOrders := o_createdOrders st;
      total_holdings := List.length allHoldings |}).

(** ** DELETE /order/:id *)

(** [findByIdAndDelete(id)] *)
Fixpoint findByIdAndDelete (id : nat) (os : OrdersModel.coll)
  : OrdersModel.coll :=
  match os with
  | [] => []
  | o :: r => if (Order._id o =? id)%nat then r
              else o :: findByIdAndDelete id r
  end.

(** The answer is "Order deleted successfully" whether or not the id is
    known. *)
Definition deleteOrder (id : nat) (db : Db) : Db :=
  withOrders (findByIdAndDelete id (orders db)) db.

(** ** DELETE /orders/cleanup *)

(** The [$or] filter: no name ([$exists: false] or [null]), an empty
    name, the name "-", or a price of zero. *)
Definition cleanupMatches (o : Order.t) : bool :=
  match Order.name o with
  | None => true
  | Some n => (n =? "")%string || (n =? "-")%string
  end
  || Qeq_bool (Order.price o) 0.

(** [deleteMany(filter)], with the [deletedCount] of the answer. *)
Definition cleanupOrders (db : Db) : Db * nat :=
  (withOrders (filter (fun o => negb (cleanupMatches o)) (orders db)) db,
   List.length (filter cleanupMatches (orders db))).

(** ** The Orders page of the dashboard (Menu.js) *)

(** [checkMissingHoldings(ordersList)], given the answer of
    [/allHoldings]: the executed BUY orders without a holding, as passed
    to [setMissingHoldings].  [None] when the function throws, on an
    executed BUY order without a name: its [catch] logs the error and
    the list the page holds is not set. *)
Definition checkMissingHoldings (ordersList : list Order.t)
    (hs : HoldingsModel.coll) : option (list Order.t) :=
  let executedBuyOrders :=
    filter (fun order => status_eqb (Order.status order) Executed
                         && (Js.toLowerCase (Order.mode order) =? "buy")%string)
      ordersList in
  if (List.length executedBuyOrders =? 0)%nat then Some []
  else
    let holdingNames := map (fun h => Js.toUpperCase (Holding.name h)) hs in
    if forallb (fun order => match Order.name order with
                             | Some _ => true
                             | None => false
                             end) executedBuyOrders
    then
      Some (filter (fun order =>
                      negb (existsb
                              (String.eqb
                                 (Js.toUpperCase (Js.orEmpty (Order.name order))))
                              holdingNames))
              executedBuyOrders)
    else None.



(** [const isPending = order.status === "pending"]: the row shows the
    Confirm and Reject buttons. *)
Definition isPending (order : Order.t) : bool :=
  status_eqb (Order.status order) Pending.

(** [orders.filter(o => o.status === "pending").length] *)
Definition pendingCount (os : list Order.t) : nat :=
  List.length (filter isPending os).

(** ** The portfolio totals of the dashboard (Summary, Holdings, Funds) *)

(** [holdings.reduce((sum, stock) => sum + (stock.avg * stock.qty), 0)] *)
Definition totalInvestment (hs : list Holding.t) : Q :=
  fold_left (fun sum stock => sum + Holding.avg stock * Holding.qty stock)
    hs 0.

(** [holdings.reduce((sum, stock) => sum + (stock.price * stock.qty), 0)] *)
Definition currentValue (hs : list Holding.t) : Q :=
  fold_left (fun sum stock => sum + Holding.price stock * Holding.qty stock)
    hs 0.

Definition totalPnL (hs : list Holding.t) : Q :=
  currentValue hs - totalInvestment hs.

(** ** Invariants of the holdings collection *)

(** One document per instrument. *)
Definition uniqueNames (hs : HoldingsModel.coll) : Prop :=
  NoDup (map Holding.name hs).

(** Every name is in upper case, as [updateHoldings] writes it. *)
Definition upperNames (hs : HoldingsModel.coll) : Prop :=
  Forall (fun h => Js.toUpperCase (Holding.name h) = Holding.name h) hs.

(** Every stored quantity is positive. *)
Definition positiveQuantities (hs : HoldingsModel.coll) : Prop :=
  Forall (fun h => 0 < Holding.qty h) hs.

(** * Properties *)

Example tcs_first_buy :
  updateHoldings [] "tcs" 10 100 "BUY"
  = Ok ([Holding.mk "TCS" 10 100 100 "0%" "0%"],
        CreatedHolding (Holding.mk "TCS" 10 100 100 "0%" "0%")).
Proof. reflexivity. Qed.

(** ** The holdings collection *)

Section HoldingsFacts.

Import HoldingsModel.

Lemma findOne_name n hs h : findOne n hs = Some h -> Holding.name h = n.
Proof.
  induction hs as [|x r IH]; simpl; [discriminate|].
  destruct (String.eqb_spec (Holding.name x) n) as [E|E].
  - intros [= <-]. exact E.
  - exact IH.
Qed.

Lemma findOne_save n hs h h' :
  findOne n hs = Some h -> Holding.name h' = n ->
  findOne n (save n h' hs) = Some h'.
Proof.
  intros F N. induction hs as [|x r IH]; simpl in *; [discriminate|].
  destruct (String.eqb_spec (Holding.name x) n) as [E|E]; simpl.
  - rewrite N, String.eqb_refl. reflexivity.
  - destruct (String.eqb_spec (Holding.name x) n); [contradiction|].
    apply IH, F.
Qed.

Lemma findOne_create n hs h :
  findOne n hs = None -> Holding.name h = n ->
  findOne n (create h hs) = Some h.
Proof.
  intros F N. unfold create.
  induction hs as [|x r IH]; simpl in *.
  - rewrite N, String.eqb_refl. reflexivity.
  - destruct (Holding.name x =? n)%string; [discriminate|]. apply IH, F.
Qed.

Lemma findOne_create_other n hs h :
  Holding.name h <> n -> findOne n (create h hs) = findOne n hs.
Proof.
  intros D. unfold create. induction hs as [|x r IH]; simpl.
  - destruct (String.eqb_spec (Holding.name h) n); [contradiction|].
    reflexivity.
  - rewrite IH. reflexivity.
Qed.

End HoldingsFacts.

(** ** updateHoldings, path by path *)

Lemma validParams_check name qty price mode :
  validParams name qty price mode <->
  Js.notStr name || Js.notNum qty || Js.notNum price || Js.notStr mode = false.
Proof.
  unfold validParams, Js.notStr, Js.notNum.
  rewrite !orb_false_iff, !String.eqb_neq.
  assert (N : forall q, Qeq_bool q 0 = false <-> ~ q == 0).
  { intros q. rewrite <- Qeq_bool_iff. destruct (Qeq_bool q 0); intuition congruence. }
  rewrite !N. tauto.
Qed.

Lemma updateHoldings_buy hs name qty price mode :
  validParams name qty price mode ->
  Js.toLowerCase mode = "buy" ->
  updateHoldings hs name qty price mode =
  match HoldingsModel.findOne (Js.toUpperCase name) hs with
  | Some existingHolding =>
      let h' :=
        {| Holding.name := Holding.name existingHolding;
           Holding.qty := Holding.qty existingHolding + qty;
           Holding.avg :=
             (Holding.avg existingHolding * Holding.qty existingHolding
              + price * qty) / (Holding.qty existingHolding + qty);
           Holding.price := price;
           Holding.net := Holding.net existingHolding;
           Holding.day := Holding.day existingHolding |} in
      if Qeq_bool (Holding.qty existingHolding + qty) 0
         && Qeq_bool (Holding.avg existingHolding * Holding.qty existingHolding
                      + price * qty) 0
      then Throw ValidationError
      else Ok (HoldingsModel.save (Js.toUpperCase name) h' hs,
               UpdatedHolding h')
  | None =>
      let h :=
        {| Holding.name := Js.toUpperCase name; Holding.qty := qty;
           Holding.avg := price; Holding.price := price;
           Holding.net := "0%"; Holding.day := "0%" |} in
      Ok (HoldingsModel.create h hs, CreatedHolding h)
  end.
Proof.
  intros V L. unfold updateHoldings.
  apply validParams_check in V. rewrite V, L. simpl. reflexivity.
Qed.

(** Away from a total quantity of zero the average is a number. *)
Lemma average_is_number q c :
  ~ q == 0 -> Qeq_bool q 0 && Qeq_bool c 0 = false.
Proof.
  intros N. destruct (Qeq_bool q 0) eqn:E; [|reflexivity].
  apply Qeq_bool_eq in E. contradiction.
Qed.

Lemma updateHoldings_sell hs name qty price mode :
  validParams name qty price mode ->
  Js.toLowerCase mode = "sell" ->
  updateHoldings hs name qty price mode =
  match HoldingsModel.findOne (Js.toUpperCase name) hs with
  | Some existingHolding =>
      let h' :=
        Holding.setQty (Holding.qty existingHolding - qty) existingHolding in
      if Qle_bool (Holding.qty existingHolding - qty) 0
      then Ok (HoldingsModel.deleteOne (Js.toUpperCase name) hs, RemovedHolding)
      else Ok (HoldingsModel.save (Js.toUpperCase name) h' hs, ReducedHolding h')
  | None => Ok (hs, WarnedNoHolding)
  end.
Proof.
  intros V L. unfold updateHoldings.
  apply validParams_check in V. rewrite V, L. simpl. reflexivity.
Qed.

Lemma updateHoldings_invalid hs name qty price mode :
  ~ validParams name qty price mode ->
  updateHoldings hs name qty price mode = Throw InvalidParameters.
Proof.
  intros V. unfold updateHoldings.
  rewrite validParams_check in V.
  destruct (Js.notStr name || Js.notNum qty || Js.notNum price
            || Js.notStr mode); [reflexivity | contradiction V; reflexivity].
Qed.

(** What a call that returns has gone through. *)
Lemma updateHoldings_Ok hs name qty price mode hs' out :
  updateHoldings hs name qty price mode = Ok (hs', out) ->
  validParams name qty price mode
  /\ (Js.toLowerCase mode = "buy" \/ Js.toLowerCase mode = "sell").
Proof.
  unfold updateHoldings.
  destruct (Js.notStr name || Js.notNum qty || Js.notNum price
            || Js.notStr mode) eqn:C; [discriminate|].
  apply validParams_check in C.
  destruct (String.eqb_spec (Js.toLowerCase mode) "buy"); [auto|].
  destruct (String.eqb_spec (Js.toLowerCase mode) "sell"); [auto|].
  discriminate.
Qed.

(** C1. An executed BUY order that passes the validation of
    [updateHoldings]: when a position of the instrument exists with
    quantity q and average cost a, and the new total quantity is not zero
    and the computation stays within the finite doubles, the position
    afterwards has quantity q + order.quantity and average cost
    (q * a + order.quantity * order.price) / (q + order.quantity); when
    none exists, the new position has quantity order.quantity and average
    cost order.price. *)
Theorem buy_position name qty price mode hs :
  validParams name qty price mode ->
  Js.toLowerCase mode = "buy" ->
  match HoldingsModel.findOne (Js.toUpperCase name) hs with
  | Some h => buyComputes h qty price
  | None => True
  end ->
  exists hs' out h',
    updateHoldings hs name qty price mode = Ok (hs', out)
    /\ HoldingsModel.findOne (Js.toUpperCase name) hs' = Some h'
    /\ match HoldingsModel.findOne (Js.toUpperCase name) hs with
       | Some h =>
           Holding.qty h' = Holding.qty h + qty
           /\ Holding.avg h'
              == (Holding.qty h * Holding.avg h + qty * price)
                 / (Holding.qty h + qty)
       | None => Holding.qty h' = qty /\ Holding.avg h' = price
       end.
Proof.
  intros V L G. rewrite (updateHoldings_buy hs _ _ _ _ V L).
  destruct (HoldingsModel.findOne (Js.toUpperCase name) hs) as [h|] eqn:F;
    cbv zeta.
  - destruct G as [G _]. rewrite (average_is_number _ _ G).
    eexists _, _, _. split; [reflexivity|]. split.
    + eapply findOne_save; [exact F|]. simpl. eapply findOne_name, F.
    + simpl. split; [reflexivity|].
      rewrite (Qmult_comm (Holding.avg h)), (Qmult_comm price).
      reflexivity.
  - eexists _, _, _. split; [reflexivity|]. split.
    + apply findOne_create; [exact F | reflexivity].
    + simpl. split; reflexivity.
Qed.

Lemma buy_position_witness :
  exists hs' out h',
    updateHoldings [Holding.mk "TCS" 10 100 100 "0%" "0%"] "tcs" 5 120 "BUY"
    = Ok (hs', out)
    /\ HoldingsModel.findOne "TCS" hs' = Some h'
    /\ Holding.qty h' = 10 + 5
    /\ Holding.avg h' == (10 * 100 + 5 * 120) / (10 + 5).
Proof.
  apply (buy_position "tcs" 5 120 "BUY"
           [Holding.mk "TCS" 10 100 100 "0%" "0%"]).
  - unfold validParams. repeat split; discriminate.
  - reflexivity.
  - simpl. unfold buyComputes, Js.inRange. simpl.
    repeat split; try discriminate;
      apply Qle_bool_imp_le; vm_compute; reflexivity.
Defined.

(** A SELL order that passes the validation: when no position of the
    instrument exists, [updateHoldings] only warns (it returns null,
    throws nothing) and leaves every position unchanged; when the order's
    quantity exceeds the quantity of the existing position, the position
    is deleted. *)
Lemma sell_beyond_position name qty price mode hs :
  validParams name qty price mode ->
  Js.toLowerCase mode = "sell" ->
  match HoldingsModel.findOne (Js.toUpperCase name) hs with
  | None => updateHoldings hs name qty price mode = Ok (hs, WarnedNoHolding)
  | Some h =>
      Holding.qty h < qty ->
      updateHoldings hs name qty price mode
      = Ok (HoldingsModel.deleteOne (Js.toUpperCase name) hs, RemovedHolding)
  end.
Proof.
  intros V L. rewrite (updateHoldings_sell hs _ _ _ _ V L).
  destruct (HoldingsModel.findOne (Js.toUpperCase name) hs) as [h|];
    [|reflexivity].
  intros Lt. cbv zeta.
  assert (E : Qle_bool (Holding.qty h - qty) 0 = true)
    by (apply Qle_bool_iff; lra).
  rewrite E. reflexivity.
Qed.

(** C2. Selling 15 at 130 out of a position of 10 at 100: nothing tells
    the caller that the position is too small, and the position is not
    left as it was: [updateHoldings] subtracts, finds -5 <= 0 and deletes
    the holding, as if all shares had been sold. *)
Theorem oversell_removes_holding :
  let hs := [Holding.mk "TCS" 10 100 100 "0%" "0%"] in
  positionOf "TCS" hs = Some (10, 100)
  /\ 10 < 15
  /\ updateHoldings hs "TCS" 15 130 "sell" = Ok ([], RemovedHolding)
  /\ positionOf "TCS" [] = None.
Proof. repeat split; reflexivity. Qed.

(** C9. Selling 5 at 130 out of a position of 10 whose last price is 100
    writes the position back with 5 left, and its [price] is still 100:
    the SELL path of [updateHoldings] saves the holding without the
    assignment [existingHolding.price = price] that the BUY path makes. *)
Theorem sell_keeps_last_price :
  exists hs' h',
    updateHoldings [Holding.mk "TCS" 10 100 100 "0%" "0%"] "TCS" 5 130 "sell"
    = Ok (hs', ReducedHolding h')
    /\ HoldingsModel.findOne "TCS" hs' = Some h'
    /\ Holding.qty h' == 5
    /\ Holding.price h' = 100
    /\ ~ Holding.price h' == 130.
Proof.
  eexists _, _. split; [reflexivity|]. split; [reflexivity|].
  repeat split; try reflexivity. discriminate.
Qed.

(** ** The orders collection *)

Section OrdersFacts.

Import OrdersModel.

Lemma findById_id id os o : findById id os = Some o -> Order._id o = id.
Proof.
  induction os as [|x r IH]; simpl; [discriminate|].
  destruct (Nat.eqb_spec (Order._id x) id) as [E|E].
  - intros [= <-]. exact E.
  - exact IH.
Qed.

Lemma findById_save id os o o' :
  findById id os = Some o -> Order._id o' = id ->
  findById id (save o' os) = Some o'.
Proof.
  intros F N. induction os as [|x r IH]; simpl in *; [discriminate|].
  rewrite N.
  destruct (Nat.eqb_spec (Order._id x) id) as [E|E]; simpl.
  - rewrite N, Nat.eqb_refl. reflexivity.
  - destruct (Nat.eqb_spec (Order._id x) id); [contradiction|].
    apply IH, F.
Qed.

Lemma save_found id os o :
  findById id os = Some o -> save o os = os.
Proof.
  intros F. pose proof (findById_id _ _ _ F) as N. rewrite <- N in F.
  induction os as [|x r IH]; simpl in *; [reflexivity|].
  destruct (Order._id x =? Order._id o)%nat.
  - injection F as ->. reflexivity.
  - rewrite IH by exact F. reflexivity.
Qed.

Lemma setStatus_same o : Order.setStatus (Order.status o) o = o.
Proof. destruct o. reflexivity. Qed.

Lemma findExecutedBuy_mode os o :
  In o (findExecutedBuy os) -> Js.regexBuyI (Order.mode o) = true.
Proof.
  unfold findExecutedBuy. rewrite filter_In.
  intros [_ H]. apply andb_true_iff in H. apply H.
Qed.

End OrdersFacts.

(** After an accepted BUY the instrument has a holding, so the check
    [if (!verifyHolding)] of the confirm handler passes. *)
Lemma buy_leaves_holding hs name qty price mode hs' out :
  Js.toLowerCase mode = "buy" ->
  updateHoldings hs name qty price mode = Ok (hs', out) ->
  HoldingsModel.findOne (Js.toUpperCase name) hs' <> None.
Proof.
  intros L U. unfold updateHoldings in U. rewrite L in U. simpl in U.
  destruct (Js.notStr name || Js.notNum qty || Js.notNum price
            || Js.notStr mode); [discriminate|].
  destruct (HoldingsModel.findOne (Js.toUpperCase name) hs) as [h|] eqn:F.
  - destruct (Qeq_bool _ 0 && Qeq_bool _ 0); [discriminate|].
    injection U as <- _.
    erewrite findOne_save; [discriminate | exact F |].
    simpl. eapply findOne_name, F.
  - injection U as <- _.
    rewrite findOne_create; [discriminate | exact F | reflexivity].
Qed.

(** An order on which [updateHoldings] returns has a name. *)
Lemma updated_order_named hs o hs' out :
  updateHoldings hs (Js.orEmpty (Order.name o)) (Order.qty o)
    (Order.price o) (Order.mode o) = Ok (hs', out) ->
  exists n, Order.name o = Some n.
Proof.
  intros U. apply updateHoldings_Ok in U. destruct U as [[N _] _].
  destruct (Order.name o) as [n|]; [eauto | contradiction N; reflexivity].
Qed.

(** The confirm handler on an order that is not yet executed and whose
    holdings update returns. *)
Lemma confirmOrder_ok id db order hs' out :
  OrdersModel.findById id (orders db) = Some order ->
  Order.status order <> Executed ->
  updateHoldings (holdings db) (Js.orEmpty (Order.name order))
    (Order.qty order) (Order.price order) (Order.mode order) = Ok (hs', out) ->
  confirmOrder id db
  = ({| holdings := hs';
        orders := OrdersModel.save (Order.setStatus Executed order) (orders db);
        nextId := nextId db |},
     Confirmed (Order.setStatus Executed order)).
Proof.
  intros F S U. unfold confirmOrder. rewrite F.
  assert (E : status_eqb (Order.status order) Executed = false)
    by (destruct (Order.status order); try reflexivity; contradiction).
  rewrite E, U.
  destruct (Js.toLowerCase (Order.mode order) =? "buy")%string eqn:B;
    [|reflexivity].
  apply String.eqb_eq in B.
  destruct (updated_order_named _ _ _ _ U) as [n N].
  rewrite N in *. simpl in U.
  pose proof (buy_leaves_holding _ _ _ _ _ _ _ B U) as H.
  destruct (HoldingsModel.findOne _ hs'); [reflexivity | contradiction].
Qed.

(** C5, counterexample. A PENDING order stored with price 0, as the
    assistant's dialog stores a limit order whose price was left empty:
    its first confirm answers "Failed to update holdings" and the order
    stays PENDING. *)
Lemma pending_order_confirm_fails : ~ firstConfirmExecutes.
Proof.
  intros H.
  destruct (H 0%nat
              (mkDb [] [Order.mk 0 (Some "INFY") 10 0 "buy" false true Pending]
                 1)
              (Order.mk 0 (Some "INFY") 10 0 "buy" false true Pending)
              eq_refl eq_refl) as [H1 _].
  discriminate H1.
Qed.

(** C5, amended. A PENDING order on which the holdings update does not
    throw: the first confirm applies [updateHoldings] once and stores the
    order as EXECUTED; a second confirm of the same id answers "already
    executed" and changes neither the holdings nor the orders. *)
Theorem confirm_twice id db order hs' out :
  OrdersModel.findById id (orders db) = Some order ->
  Order.status order = Pending ->
  updateHoldings (holdings db) (Js.orEmpty (Order.name order))
    (Order.qty order) (Order.price order) (Order.mode order) = Ok (hs', out) ->
  exists db1,
    confirmOrder id db = (db1, Confirmed (Order.setStatus Executed order))
    /\ holdings db1 = hs'
    /\ OrdersModel.findById id (orders db1)
       = Some (Order.setStatus Executed order)
    /\ confirmOrder id db1 = (db1, ConfirmAlreadyExecuted).
Proof.
  intros F S U.
  assert (NE : Order.status order <> Executed) by (rewrite S; discriminate).
  pose proof (confirmOrder_ok id db order hs' out F NE U) as C.
  assert (F1 : OrdersModel.findById id
                 (OrdersModel.save (Order.setStatus Executed order) (orders db))
               = Some (Order.setStatus Executed order)).
  { eapply findById_save; [exact F|]. simpl. eapply findById_id, F. }
  eexists. split; [exact C|].
  split; [reflexivity|]. split; [exact F1|].
  unfold confirmOrder. simpl. rewrite F1. reflexivity.
Qed.

Lemma confirm_twice_witness :
  let order := Order.mk 0 (Some "infy") 10 50 "BUY" true false Pending in
  let db := mkDb [] [order] 1 in
  exists db1,
    confirmOrder 0 db = (db1, Confirmed (Order.setStatus Executed order))
    /\ holdings db1 = [Holding.mk "INFY" 10 50 50 "0%" "0%"]
    /\ OrdersModel.findById 0 (orders db1)
       = Some (Order.setStatus Executed order)
    /\ confirmOrder 0 db1 = (db1, ConfirmAlreadyExecuted).
Proof.
  intros order db.
  apply (confirm_twice 0 db order [Holding.mk "INFY" 10 50 50 "0%" "0%"]
           (CreatedHolding (Holding.mk "INFY" 10 50 50 "0%" "0%"))).
  - reflexivity.
  - reflexivity.
  - reflexivity.
Defined.

(** C6. A confirm of an order that is not yet executed: when
    [updateHoldings] throws, the handler answers "Failed to update
    holdings" and the database, so the order's status too, is as before;
    and whenever the order is EXECUTED after the call, [updateHoldings]
    returned and the holdings are the ones it produced, so an executed
    order whose position update failed never comes out of a confirm. *)
Theorem confirm_fails_entirely id db order :
  OrdersModel.findById id (orders db) = Some order ->
  Order.status order <> Executed ->
  (forall e,
      updateHoldings (holdings db) (Js.orEmpty (Order.name order))
        (Order.qty order) (Order.price order) (Order.mode order) = Throw e ->
      confirmOrder id db = (db, ConfirmHoldingsFailed e order))
  /\ (forall o',
         OrdersModel.findById id (orders (fst (confirmOrder id db))) = Some o' ->
         Order.status o' = Executed ->
         exists out,
           updateHoldings (holdings db) (Js.orEmpty (Order.name order))
             (Order.qty order) (Order.price order) (Order.mode order)
           = Ok (holdings (fst (confirmOrder id db)), out)).
Proof.
  intros F S.
  assert (E : status_eqb (Order.status order) Executed = false)
    by (destruct (Order.status order); try reflexivity; contradiction).
  split.
  - intros e U. unfold confirmOrder. rewrite F, E, U. reflexivity.
  - intros o'.
    destruct (updateHoldings (holdings db) (Js.orEmpty (Order.name order))
                (Order.qty order) (Order.price order) (Order.mode order))
      as [[hs' out]|e] eqn:U.
    + rewrite (confirmOrder_ok id db order hs' out F S U). simpl.
      intros _ _. exists out. reflexivity.
    + unfold confirmOrder. rewrite F, E, U. simpl. rewrite F.
      intros [= <-] X. congruence.
Qed.

Lemma confirm_fails_entirely_witness :
  let order := Order.mk 0 (Some "INFY") 0 50 "buy" true false Pending in
  let db := mkDb [] [order] 1 in
  confirmOrder 0 db = (db, ConfirmHoldingsFailed InvalidParameters order)
  /\ OrdersModel.findById 0 (orders (fst (confirmOrder 0 db))) = Some order.
Proof.
  intros order db.
  assert (S : Order.status order <> Executed) by discriminate.
  split.
  - apply (proj1 (confirm_fails_entirely 0 db order eq_refl S)).
    reflexivity.
  - reflexivity.
Defined.

(** C7. [POST /newOrder] stores the order with a status read off its
    origin alone.  MANUAL: EXECUTED, and [updateHoldings] runs at once;
    when it throws, the order stays stored as EXECUTED, the holdings are
    untouched and the answer is the warning "Order placed but holdings
    update failed".  VOICE and ASSISTANT: PENDING, holdings untouched,
    and the answer asks for confirmation. *)
Theorem newOrder_by_origin body db :
  exists o,
    orders (fst (newOrder body db)) = (orders db ++ [o])%list
    /\ Order.status o
       = match originOf body with MANUAL => Executed | _ => Pending end
    /\ match originOf body with
       | MANUAL =>
           match updateHoldings (holdings db) (Js.orEmpty (b_name body))
                   (b_qty body) (b_price body) (b_mode body) with
           | Ok (hs', _) =>
               holdings (fst (newOrder body db)) = hs'
               /\ snd (newOrder body db) = OrderPlaced o false
           | Throw _ =>
               holdings (fst (newOrder body db)) = holdings db
               /\ snd (newOrder body db) = OrderPlacedHoldingsFailed o
           end
       | VOICE | ASSISTANT =>
           holdings (fst (newOrder body db)) = holdings db
           /\ snd (newOrder body db) = OrderPlaced o true
       end.
Proof.
  unfold newOrder, originOf.
  destruct (b_is_voice_order body), (b_is_simulated body); simpl;
    try (eexists; repeat split; reflexivity).
  destruct (updateHoldings (holdings db) (Js.orEmpty (b_name body))
              (b_qty body) (b_price body) (b_mode body)) as [[hs' out]|e];
    eexists; repeat split; reflexivity.
Qed.

(** C10. [POST /order/:id/reject] answers "Cannot reject executed
    order" exactly when the order exists and is EXECUTED; on an order that
    is already REJECTED it succeeds, returns the order, still REJECTED,
    and leaves the whole database, every holding included, as it was. *)
Theorem reject_rejected_again id db :
  (snd (rejectOrder id db) = RejectExecuted <->
   exists o, OrdersModel.findById id (orders db) = Some o
             /\ Order.status o = Executed)
  /\ (forall o,
         OrdersModel.findById id (orders db) = Some o ->
         Order.status o = Rejected ->
         rejectOrder id db = (db, RejectedOrder o)).
Proof.
  unfold rejectOrder. split.
  - destruct (OrdersModel.findById id (orders db)) as [o|] eqn:F.
    + destruct (Order.status o) eqn:S; simpl; split;
        try discriminate; try (intros (o' & [= <-] & E); congruence).
      intros _. exists o. split; [reflexivity | exact S].
    + simpl. split; [discriminate | intros (o' & E & _); discriminate].
  - intros o F S. rewrite F, S. simpl.
    rewrite <- S, setStatus_same, (save_found id _ _ F).
    destruct db; reflexivity.
Qed.

Lemma reject_rejected_again_witness :
  let order := Order.mk 0 (Some "INFY") 10 50 "buy" true false Rejected in
  let db := mkDb [Holding.mk "TCS" 10 100 100 "0%" "0%"] [order] 1 in
  rejectOrder 0 db = (db, RejectedOrder order).
Proof.
  intros order db.
  apply (proj2 (reject_rejected_again 0 db) order); reflexivity.
Defined.

Lemma findById_save_other id os o' :
  Order._id o' <> id ->
  OrdersModel.findById id (OrdersModel.save o' os) = OrdersModel.findById id os.
Proof.
  intros D. induction os as [|x r IH]; simpl; [reflexivity|].
  destruct (Nat.eqb_spec (Order._id x) (Order._id o')) as [E|E]; simpl.
  - destruct (Nat.eqb_spec (Order._id o') id); [contradiction|].
    destruct (Nat.eqb_spec (Order._id x) id); [congruence | reflexivity].
  - rewrite IH. reflexivity.
Qed.

(** What a confirm or a reject leaves in the orders collection: the
    collection as it was, or the order it names saved with a new
    status. *)
Lemma runOp_orders db op :
  orders (runOp db op) = orders db
  \/ exists o s,
       OrdersModel.findById (match op with ConfirmOp i | RejectOp i => i end)
         (orders db) = Some o
       /\ Order.status o <> Executed
       /\ orders (runOp db op)
          = OrdersModel.save (Order.setStatus s o) (orders db).
Proof.
  destruct op as [id|id]; simpl.
  - unfold confirmOrder.
    destruct (OrdersModel.findById id (orders db)) as [o|] eqn:F; [|auto].
    destruct (status_eqb (Order.status o) Executed) eqn:E; [auto|].
    assert (N : Order.status o <> Executed)
      by (intros X; rewrite X in E; discriminate).
    destruct (updateHoldings _ _ _ _ _) as [[hs' out]|e]; [|auto].
    destruct (Js.toLowerCase (Order.mode o) =? "buy")%string.
    + destruct (Order.name o) as [n|]; [|auto].
      destruct (HoldingsModel.findOne _ hs'); [|auto].
      right. exists o, Executed. auto.
    + right. exists o, Executed. auto.
  - unfold rejectOrder.
    destruct (OrdersModel.findById id (orders db)) as [o|] eqn:F; [|auto].
    destruct (status_eqb (Order.status o) Executed) eqn:E; [auto|].
    assert (N : Order.status o <> Executed)
      by (intros X; rewrite X in E; discriminate).
    right. exists o, Rejected. auto.
Qed.

(** Neither handler touches an order that is EXECUTED, whichever order
    the request names. *)
Lemma runOp_executed db op id :
  statusOf id db = Some Executed -> statusOf id (runOp db op) = Some Executed.
Proof.
  unfold statusOf. intros H.
  destruct (runOp_orders db op) as [E|(o & s & F & N & E)]; rewrite E;
    [exact H|].
  rewrite findById_save_other; [exact H|].
  simpl. rewrite (findById_id _ _ _ F). intros <-.
  rewrite F in H. simpl in H. congruence.
Qed.

Lemma runOps_executed ops : forall db id,
  statusOf id db = Some Executed ->
  statusOf id (runOps ops db) = Some Executed.
Proof.
  unfold runOps. induction ops as [|op r IH]; simpl; intros db id H;
    [exact H|].
  apply IH, runOp_executed, H.
Qed.

(** C4. A VOICE order is placed (PENDING), then rejected (REJECTED), then
    confirmed: the confirm handler, which only refuses the status
    "executed", runs [updateHoldings] and stores the order as EXECUTED.
    REJECTED is therefore not terminal on the code. *)
Theorem rejected_order_confirmed :
  let body := mkBody (Some "INFY") 10 50 "buy" true false in
  let db1 := fst (newOrder body (mkDb [] [] 0)) in
  let db2 := runOps [RejectOp 0] db1 in
  let db3 := runOps [RejectOp 0; ConfirmOp 0] db1 in
  statusOf 0 db1 = Some Pending
  /\ statusOf 0 db2 = Some Rejected
  /\ statusOf 0 db3 = Some Executed
  /\ holdings db2 = []
  /\ holdings db3 = [Holding.mk "INFY" 10 50 50 "0%" "0%"].
Proof. repeat split; reflexivity. Qed.

(** ** The filter of the repair scan and the mode test of updateHoldings *)

Lemma upperChar_lowerChar c x :
  In x ["B"; "U"; "Y"]%char ->
  Ascii.eqb (Js.upperChar c) x = true -> Js.lowerChar c = Js.lowerChar x.
Proof.
  intros I E. apply Ascii.eqb_eq in E. subst x. revert I.
  destruct c as [[] [] [] [] [] [] [] []]; vm_compute;
    intuition (try discriminate; try reflexivity).
Qed.

Lemma regexBuyI_lower s : Js.regexBuyI s = true -> Js.toLowerCase s = "buy".
Proof.
  destruct s as [|c1 [|c2 [|c3 [|c4 r]]]]; simpl; try discriminate.
  rewrite !andb_true_iff. intros [[H1 H2] H3].
  rewrite (upperChar_lowerChar c1 "B"), (upperChar_lowerChar c2 "U"),
    (upperChar_lowerChar c3 "Y"); simpl; auto.
Qed.

(** ** The repair scan *)

Lemma orderValid_dec o : orderValid o \/ ~ orderValid o.
Proof.
  unfold orderValid. rewrite validParams_check.
  destruct (Js.notStr (Js.orEmpty (Order.name o)) || Js.notNum (Order.qty o)
            || Js.notNum (Order.price o) || Js.notStr (Order.mode o));
    [right; discriminate | left; reflexivity].
Qed.

Lemma findOne_create_keep n hs x h :
  HoldingsModel.findOne n hs = Some h ->
  HoldingsModel.findOne n (HoldingsModel.create x hs) = Some h.
Proof.
  unfold HoldingsModel.create.
  induction hs as [|y r IH]; simpl; [discriminate|].
  destruct (Holding.name y =? n)%string; [trivial | exact IH].
Qed.

(** One iteration on an executed BUY order that has a name, case by
    case. *)
Lemma repairStep_cases st o n :
  Js.regexBuyI (Order.mode o) = true ->
  Order.name o = Some n ->
  (HoldingsModel.findOne (Js.toUpperCase n) (l_holdings st) <> None
   /\ repairStep st o = Ok st)
  \/ (HoldingsModel.findOne (Js.toUpperCase n) (l_holdings st) = None
      /\ orderValid o
      /\ exists st',
           repairStep st o = Ok st'
           /\ l_holdings st'
              = HoldingsModel.create (firstHolding o) (l_holdings st)
           /\ l_fixed st' = S (l_fixed st))
  \/ (HoldingsModel.findOne (Js.toUpperCase n) (l_holdings st) = None
      /\ ~ orderValid o
      /\ exists st',
           repairStep st o = Ok st'
           /\ l_holdings st' = l_holdings st
           /\ l_fixed st' = l_fixed st).
Proof.
  intros R N. apply regexBuyI_lower in R.
  unfold repairStep, orderValid, firstHolding. rewrite N. simpl.
  destruct (HoldingsModel.findOne (Js.toUpperCase n) (l_holdings st))
    as [h|] eqn:F.
  - left. split; [discriminate | reflexivity].
  - right.
    destruct (orderValid_dec o) as [V|V]; unfold orderValid in V;
      rewrite N in V; simpl in V.
    + left. rewrite (updateHoldings_buy _ _ _ _ _ V R), F. cbv zeta.
      split; [reflexivity|]. split; [exact V|].
      eexists. split; [reflexivity|]. split; reflexivity.
    + right. rewrite (updateHoldings_invalid _ _ _ _ _ V).
      split; [reflexivity|]. split; [exact V|].
      eexists. split; [reflexivity|]. split; reflexivity.
Qed.

(** An iteration throws exactly on an order without a name. *)
Lemma repairStep_throws st o :
  (exists e, repairStep st o = Throw e) <-> Order.name o = None.
Proof.
  unfold repairStep. destruct (Order.name o) as [n|].
  - split; [|discriminate]. intros [e E].
    destruct (HoldingsModel.findOne _ _); [discriminate|].
    destruct (updateHoldings _ _ _ _ _) as [[hs' out]|e']; discriminate.
  - split; [reflexivity | eauto].
Qed.

(** A holding that [findOne] reaches is still reached, unchanged, after an
    iteration of the scan. *)
Lemma repairStep_keeps st o st' n h :
  Js.regexBuyI (Order.mode o) = true ->
  repairStep st o = Ok st' ->
  HoldingsModel.findOne n (l_holdings st) = Some h ->
  HoldingsModel.findOne n (l_holdings st') = Some h.
Proof.
  intros R S F.
  destruct (Order.name o) as [m|] eqn:N;
    [|unfold repairStep in S; rewrite N in S; discriminate].
  destruct (repairStep_cases st o m R N)
    as [[_ E]|[(_ & _ & x & E & Eh & _)|(_ & _ & x & E & Eh & _)]];
    rewrite E in S; injection S as <-; try rewrite Eh; try exact F.
  apply findOne_create_keep, F.
Qed.

Lemma repairScan_keeps os : forall st n h,
  Forall (fun o => Js.regexBuyI (Order.mode o) = true) os ->
  HoldingsModel.findOne n (l_holdings st) = Some h ->
  HoldingsModel.findOne n (l_holdings (fst (repairScan os st))) = Some h.
Proof.
  induction os as [|o r IH]; simpl; intros st n h A F; [exact F|].
  inversion A; subst.
  destruct (repairStep st o) as [st'|e] eqn:S; [|exact F].
  apply IH; [assumption|]. eapply repairStep_keeps; eassumption.
Qed.

(** The scan reports, rather than throws, exactly when every order has a
    name. *)
Lemma repairScan_completes os : forall st,
  snd (repairScan os st) = None <-> allNamed os.
Proof.
  unfold allNamed. induction os as [|o r IH]; simpl; intros st.
  - split; [constructor | reflexivity].
  - destruct (repairStep st o) as [st'|e] eqn:S.
    + rewrite IH. split.
      * intros A. constructor; [|exact A].
        intros N. apply (repairStep_throws st o) in N.
        destruct N as [e E]. congruence.
      * intros A. inversion A; assumption.
    + simpl. split; [discriminate|].
      intros A. inversion A as [|? ? N _]; subst.
      contradiction N. apply (repairStep_throws st o). eauto.
Qed.

Lemma repairScan_throws os st e :
  snd (repairScan os st) = Some e -> e = TypeError.
Proof.
  revert st. induction os as [|o r IH]; simpl; intros st; [discriminate|].
  destruct (repairStep st o) as [st'|e'] eqn:S; [apply IH|].
  simpl. intros [= <-]. unfold repairStep in S.
  destruct (Order.name o); [|congruence].
  destruct (HoldingsModel.findOne _ _); [discriminate|].
  destruct (updateHoldings _ _ _ _ _) as [[hs' out]|e'']; discriminate.
Qed.

Lemma repairStep_settles st o st' :
  Js.regexBuyI (Order.mode o) = true ->
  repairStep st o = Ok st' ->
  settled (l_holdings st') o.
Proof.
  intros R S. unfold settled.
  destruct (Order.name o) as [n|] eqn:N;
    [|unfold repairStep in S; rewrite N in S; discriminate].
  simpl.
  destruct (repairStep_cases st o n R N)
    as [[F E]|[(F & _ & x & E & Eh & _)|(_ & V & _)]].
  - left. rewrite E in S. injection S as <-. exact F.
  - left. rewrite E in S. injection S as <-. rewrite Eh.
    rewrite findOne_create; [discriminate | exact F |].
    unfold firstHolding. rewrite N. reflexivity.
  - right. exact V.
Qed.

Lemma repairScan_settled_mono os st o :
  Forall (fun o => Js.regexBuyI (Order.mode o) = true) os ->
  settled (l_holdings st) o ->
  settled (l_holdings (fst (repairScan os st))) o.
Proof.
  intros A [F|V]; [left | right; exact V].
  destruct (HoldingsModel.findOne _ (l_holdings st)) as [h|] eqn:E;
    [|contradiction].
  rewrite (repairScan_keeps os st _ h A E). discriminate.
Qed.

(** An iteration on a settled order that has a name writes no holding. *)
Lemma repairStep_settled st o :
  Order.name o <> None ->
  settled (l_holdings st) o ->
  exists st', repairStep st o = Ok st'
              /\ l_holdings st' = l_holdings st
              /\ l_fixed st' = l_fixed st.
Proof.
  intros N S. unfold repairStep, settled, orderValid in *.
  destruct (Order.name o) as [n|]; [|contradiction]. simpl in S.
  destruct (HoldingsModel.findOne (Js.toUpperCase n) (l_holdings st)).
  - eauto.
  - destruct S as [S|S]; [contradiction S; reflexivity|].
    rewrite (updateHoldings_invalid _ _ _ _ _ S). eauto.
Qed.

(** A second scan, started on the holdings the first one left, writes
    nothing and ends as the first one did. *)
Lemma repairScan_again os : forall st st2,
  Forall (fun o => Js.regexBuyI (Order.mode o) = true) os ->
  l_holdings st2 = l_holdings (fst (repairScan os st)) ->
  l_holdings (fst (repairScan os st2)) = l_holdings st2
  /\ l_fixed (fst (repairScan os st2)) = l_fixed st2
  /\ snd (repairScan os st2) = snd (repairScan os st).
Proof.
  induction os as [|o r IH]; simpl; intros st st2 A E; [auto|].
  inversion A as [|? ? Ro Ar]; subst.
  destruct (repairStep st o) as [st'|e] eqn:S.
  - assert (N : Order.name o <> None).
    { intros N. apply (repairStep_throws st o) in N.
      destruct N as [e X]. congruence. }
    assert (T : settled (l_holdings st2) o).
    { rewrite E. apply repairScan_settled_mono; [exact Ar|].
      eapply repairStep_settles; eassumption. }
    destruct (repairStep_settled st2 o N T) as (st2' & S2 & Eh & Ef).
    rewrite S2.
    destruct (IH st' st2' Ar) as (H1 & H2 & H3); [congruence|].
    rewrite H1, H2, H3. auto.
  - assert (N : Order.name o = None)
      by (apply (repairStep_throws st o); eauto).
    unfold repairStep in *. rewrite N in *. simpl.
    injection S as <-. auto.
Qed.

Lemma findExecutedBuy_all os :
  Forall (fun o => Js.regexBuyI (Order.mode o) = true)
    (OrdersModel.findExecutedBuy os).
Proof. apply Forall_forall. intros o. apply findExecutedBuy_mode. Qed.

(** The pieces of the answer of [/repair-holdings]. *)
Lemma repairHoldings_scan db :
  let scan := repairScan (OrdersModel.findExecutedBuy (orders db))
                {| l_holdings := holdings db; l_fixed := 0;
                   l_missing := [] |} in
  holdings (fst (repairHoldings db)) = l_holdings (fst scan)
  /\ orders (fst (repairHoldings db)) = orders db
  /\ nextId (fst (repairHoldings db)) = nextId db
  /\ snd (repairHoldings db)
     = match snd scan with
       | None =>
           RepairDone
             {| fixed := l_fixed (fst scan); missing := l_missing (fst scan);
                total_checked :=
                  List.length (OrdersModel.findExecutedBuy (orders db)) |}
       | Some e => RepairFailed e
       end.
Proof.
  cbv zeta. unfold repairHoldings.
  destruct (repairScan _ _) as [st thrown]. simpl. auto.
Qed.

(** C8. An order placed without a name is stored as executed, and the
    answer of [/newOrder] points to [/repair-holdings]; on the store it
    leaves, every repair stops at that order with the answer "Failed to
    repair holdings": the second run reports no [fixed] count, and the
    valid executed BUY order placed after it never gets its holding. *)
Theorem repair_aborts_on_nameless_order :
  let nameless := Order.mk 0 None 10 100 "buy" false false Executed in
  let later := Order.mk 1 (Some "TCS") 5 120 "buy" false false Executed in
  let placed := newOrder (mkBody None 10 100 "buy" false false) (mkDb [] [] 0) in
  let db := mkDb [] [nameless; later] 2 in
  placed = (mkDb [] [nameless] 1, OrderPlacedHoldingsFailed nameless)
  /\ repairHoldings db = (db, RepairFailed TypeError)
  /\ repairHoldings (fst (repairHoldings db)) = (db, RepairFailed TypeError)
  /\ HoldingsModel.findOne "TCS" (holdings (fst (repairHoldings db))) = None.
Proof. repeat split; reflexivity. Qed.

(** ** The repair scan against the replay of the specification *)

(** C3, counterexample. Two executed buys of TCS, 10 at 100 then 5 at
    120, and no holding: the repair creates the holding of the first buy,
    10 at 100, and skips the second; the replay gives 15 at 1600/15. *)
Lemma repair_skips_later_orders : ~ repairReplaysHistory.
Proof.
  intros H.
  specialize (H (mkDb []
                   [Order.mk 0 (Some "TCS") 10 100 "buy" false false Executed;
                    Order.mk 1 (Some "TCS") 5 120 "buy" false false Executed]
                   2)
                (Order.mk 0 (Some "TCS") 10 100 "buy" false false Executed)
                "TCS").
  simpl in H. specialize (H (or_introl eq_refl) eq_refl eq_refl).
  vm_compute in H. destruct H as [H _]. discriminate H.
Qed.

Lemma repairScan_other n os : forall st,
  Forall (fun o => Js.regexBuyI (Order.mode o) = true) os ->
  Forall (fun p => Order.name p <> None
                   /\ Js.toUpperCase (Js.orEmpty (Order.name p)) <> n) os ->
  HoldingsModel.findOne n (l_holdings st) = None ->
  HoldingsModel.findOne n (l_holdings (fst (repairScan os st))) = None
  /\ snd (repairScan os st) = None.
Proof.
  induction os as [|p r IH]; simpl; intros st A D F; [auto|].
  inversion A as [|? ? Rp Ar]; subst. inversion D as [|? ? [Np Dp] Dr]; subst.
  destruct (Order.name p) as [m|] eqn:N; [|contradiction]. simpl in Dp.
  destruct (repairStep_cases st p m Rp N)
    as [[_ E]|[(_ & _ & x & E & Eh & _)|(_ & _ & x & E & Eh & _)]];
    rewrite E; apply IH; try assumption; rewrite Eh; try exact F.
  rewrite findOne_create_other; [exact F|].
  unfold firstHolding. rewrite N. exact Dp.
Qed.

(** C3, amended. For an instrument whose position is missing, the repair
    applies one order only: the first executed BUY order of the instrument
    in scan order, when [updateHoldings] accepts it.  The repaired
    position has that order's quantity, and its price as average cost and
    last price; the later executed orders of the instrument are skipped.
    It is the position the replay builds when that order is the whole
    executed history of the instrument. *)
Theorem repair_applies_first_buy db pre o post :
  OrdersModel.findExecutedBuy (orders db) = (pre ++ o :: post)%list ->
  Forall (fun p => Order.name p <> None
                   /\ Js.toUpperCase (Js.orEmpty (Order.name p))
                      <> Js.toUpperCase (Js.orEmpty (Order.name o))) pre ->
  HoldingsModel.findOne (Js.toUpperCase (Js.orEmpty (Order.name o)))
    (holdings db) = None ->
  orderValid o ->
  HoldingsModel.findOne (Js.toUpperCase (Js.orEmpty (Order.name o)))
    (holdings (fst (repairHoldings db))) = Some (firstHolding o)
  /\ (executedHistory (Js.toUpperCase (Js.orEmpty (Order.name o))) (orders db)
      = [o] ->
      positionOf (Js.toUpperCase (Js.orEmpty (Order.name o)))
        (holdings (fst (repairHoldings db)))
      = positionOf (Js.toUpperCase (Js.orEmpty (Order.name o)))
          (replayHistory (Js.toUpperCase (Js.orEmpty (Order.name o)))
             (orders db))).
Proof.
  intros E D F V.
  pose proof (findExecutedBuy_all (orders db)) as A. rewrite E in A.
  apply Forall_app in A. destruct A as [Apre A].
  inversion A as [|? ? Ro Apost]; subst.
  assert (N : exists n, Order.name o = Some n).
  { destruct (Order.name o) as [n|] eqn:N; [eauto|].
    destruct V as [V _]. rewrite N in V. contradiction V. reflexivity. }
  destruct N as [n N].
  assert (R : HoldingsModel.findOne (Js.toUpperCase (Js.orEmpty (Order.name o)))
                (holdings (fst (repairHoldings db))) = Some (firstHolding o)).
  { destruct (repairHoldings_scan db) as (-> & _). rewrite E.
    set (st0 := {| l_holdings := holdings db; l_fixed := 0; l_missing := [] |}).
    assert (P : forall l st,
               repairScan (pre ++ l) st
               = match snd (repairScan pre st) with
                 | None => repairScan l (fst (repairScan pre st))
                 | Some e => repairScan pre st
                 end).
    { intros l. clear. induction pre as [|p r IH]; simpl; intros st;
        [reflexivity|].
      destruct (repairStep st p); [apply IH | reflexivity]. }
    rewrite P.
    destruct (repairScan_other _ pre st0 Apre D F) as [Fpre ->].
    simpl. rewrite N in Fpre. simpl in Fpre.
    destruct (repairStep_cases (fst (repairScan pre st0)) o n Ro N)
      as [[X _]|[(_ & _ & x & Ex & Eh & _)|(_ & X & _)]]; try contradiction.
    rewrite Ex. rewrite N. simpl.
    apply repairScan_keeps; [exact Apost|]. rewrite Eh.
    apply findOne_create; [exact Fpre|].
    unfold firstHolding. rewrite N. reflexivity. }
  split; [exact R|].
  intros Hist. unfold positionOf at 1. rewrite R.
  unfold replayHistory. rewrite Hist. simpl. unfold aggregate.
  rewrite (updateHoldings_buy [] _ _ _ _ V (regexBuyI_lower _ Ro)). simpl.
  unfold positionOf. simpl. rewrite String.eqb_refl. reflexivity.
Qed.

Lemma repair_applies_first_buy_witness :
  let o1 := Order.mk 0 (Some "TCS") 10 100 "buy" false false Executed in
  let o2 := Order.mk 1 (Some "TCS") 5 120 "buy" false false Executed in
  HoldingsModel.findOne "TCS"
    (holdings (fst (repairHoldings (mkDb [] [o1; o2] 2))))
  = Some (firstHolding o1)
  /\ positionOf "TCS" (holdings (fst (repairHoldings (mkDb [] [o1] 1))))
     = positionOf "TCS" (replayHistory "TCS" [o1]).
Proof.
  intros o1 o2.
  assert (V : orderValid o1)
    by (unfold orderValid, validParams; repeat split; discriminate).
  split.
  - apply (proj1 (repair_applies_first_buy (mkDb [] [o1; o2] 2)
                    [] o1 [o2] eq_refl (Forall_nil _) eq_refl V)).
  - apply (proj2 (repair_applies_first_buy (mkDb [] [o1] 1)
                    [] o1 [] eq_refl (Forall_nil _) eq_refl V)).
    reflexivity.
Defined.

(** * Further properties of the handlers *)

(** ** Letter case *)

Lemma upperChar_idem c : Js.upperChar (Js.upperChar c) = Js.upperChar c.
Proof. destruct c as [[] [] [] [] [] [] [] []]; reflexivity. Qed.

Lemma toUpperCase_idem s : Js.toUpperCase (Js.toUpperCase s) = Js.toUpperCase s.
Proof.
  induction s as [|c r IH]; simpl; [reflexivity|].
  rewrite upperChar_idem, IH. reflexivity.
Qed.

Lemma lowerChar_upperChar c x :
  In x ["b"; "u"; "y"]%char ->
  Js.lowerChar c = x -> Js.upperChar c = Js.upperChar x.
Proof.
  intros I E. subst x. revert I.
  destruct c as [[] [] [] [] [] [] [] []]; vm_compute;
    intuition (try discriminate; try reflexivity).
Qed.

(** X27. The query [{ mode: { $regex: /^buy$/i } }] of the server and the
    test [mode.toLowerCase() === "buy"] of [updateHoldings] and of the
    dashboard accept the same strings. *)
Theorem regexBuyI_toLowerCase s :
  Js.regexBuyI s = (Js.toLowerCase s =? "buy")%string.
Proof.
  destruct (String.eqb_spec (Js.toLowerCase s) "buy") as [E|E].
  - destruct s as [|c1 [|c2 [|c3 [|c4 r]]]]; simpl in E; try discriminate.
    injection E as E1 E2 E3. simpl.
    rewrite (lowerChar_upperChar c1 "b"), (lowerChar_upperChar c2 "u"),
      (lowerChar_upperChar c3 "y"); simpl; auto.
  - destruct (Js.regexBuyI s) eqn:R; [|reflexivity].
    apply regexBuyI_lower in R. contradiction.
Qed.

(** ** The holdings collection, continued *)

Section HoldingsFrame.

Import HoldingsModel.

Lemma findOne_In n hs h : findOne n hs = Some h -> In h hs.
Proof.
  induction hs as [|x r IH]; simpl; [discriminate|].
  destruct (Holding.name x =? n)%string.
  - intros [= ->]. left. reflexivity.
  - intros F. right. apply IH, F.
Qed.

Lemma findOne_None n hs :
  findOne n hs = None <-> ~ In n (map Holding.name hs).
Proof.
  induction hs as [|x r IH]; simpl; [tauto|].
  destruct (String.eqb_spec (Holding.name x) n) as [E|E].
  - split; [discriminate | intros H; contradiction H; left; exact E].
  - rewrite IH. tauto.
Qed.

Lemma findOne_save_frame n m hs h' :
  Holding.name h' = m -> n <> m -> findOne n (save m h' hs) = findOne n hs.
Proof.
  intros N D. induction hs as [|x r IH]; simpl; [reflexivity|].
  destruct (String.eqb_spec (Holding.name x) m) as [E|E]; simpl.
  - destruct (String.eqb_spec (Holding.name h') n); [congruence|].
    destruct (String.eqb_spec (Holding.name x) n); [congruence|reflexivity].
  - rewrite IH. reflexivity.
Qed.

Lemma findOne_deleteOne_frame n m hs :
  n <> m -> findOne n (deleteOne m hs) = findOne n hs.
Proof.
  intros D. induction hs as [|x r IH]; simpl; [reflexivity|].
  destruct (String.eqb_spec (Holding.name x) m) as [E|E]; simpl.
  - destruct (String.eqb_spec (Holding.name x) n); [congruence|reflexivity].
  - rewrite IH. reflexivity.
Qed.

Lemma names_save n hs h h' :
  findOne n hs = Some h -> Holding.name h' = n ->
  map Holding.name (save n h' hs) = map Holding.name hs.
Proof.
  intros F N. induction hs as [|x r IH]; simpl in *; [reflexivity|].
  destruct (String.eqb_spec (Holding.name x) n) as [E|E]; simpl.
  - rewrite N, E. reflexivity.
  - rewrite IH by exact F. reflexivity.
Qed.

Lemma names_deleteOne_incl n hs x :
  In x (map Holding.name (deleteOne n hs)) -> In x (map Holding.name hs).
Proof.
  induction hs as [|y r IH]; simpl; [tauto|].
  destruct (Holding.name y =? n)%string; simpl; tauto.
Qed.

Lemma names_deleteOne_NoDup n hs :
  NoDup (map Holding.name hs) -> NoDup (map Holding.name (deleteOne n hs)).
Proof.
  induction hs as [|y r IH]; simpl; [trivial|].
  intros H. inversion H as [|? ? Hn Hr]; subst.
  destruct (Holding.name y =? n)%string; simpl; [exact Hr|].
  constructor; [|apply IH, Hr].
  intros I. apply Hn. eapply names_deleteOne_incl, I.
Qed.

Lemma Forall_save (P : Holding.t -> Prop) n h' hs :
  Forall P hs -> P h' -> Forall P (save n h' hs).
Proof.
  intros A Ph. induction A as [|x r Px Ar IH]; simpl; [constructor|].
  destruct (Holding.name x =? n)%string; constructor; assumption.
Qed.

Lemma Forall_deleteOne (P : Holding.t -> Prop) n hs :
  Forall P hs -> Forall P (deleteOne n hs).
Proof.
  intros A. induction A as [|x r Px Ar IH]; simpl; [constructor|].
  destruct (Holding.name x =? n)%string; [assumption|].
  constructor; assumption.
Qed.

Lemma deleteOne_create n hs h :
  findOne n hs = None -> Holding.name h = n ->
  deleteOne n (create h hs) = hs.
Proof.
  intros F N. unfold create.
  induction hs as [|x r IH]; simpl in *.
  - rewrite N, String.eqb_refl. reflexivity.
  - destruct (Holding.name x =? n)%string; [discriminate|].
    rewrite IH by exact F. reflexivity.
Qed.

End HoldingsFrame.

(** ** updateHoldings, continued *)

(** X1. [updateHoldings] throws "Invalid parameters" exactly when a
    parameter is falsy and "Invalid mode" exactly when the parameters are
    fine and the mode reads neither buy nor sell; any other error comes
    from saving an existing holding on a BUY, and a call that returns
    had valid parameters and a mode that reads buy or sell. *)
Theorem updateHoldings_errors hs name qty price mode :
  (updateHoldings hs name qty price mode = Throw InvalidParameters
   <-> ~ validParams name qty price mode)
  /\ (updateHoldings hs name qty price mode = Throw (InvalidMode mode)
      <-> validParams name qty price mode
          /\ Js.toLowerCase mode <> "buy" /\ Js.toLowerCase mode <> "sell")
  /\ match updateHoldings hs name qty price mode with
     | Throw InvalidParameters => True
     | Throw (InvalidMode m) => m = mode
     | Throw _ =>
         validParams name qty price mode
         /\ Js.toLowerCase mode = "buy"
         /\ HoldingsModel.findOne (Js.toUpperCase name) hs <> None
     | Ok _ =>
         validParams name qty price mode
         /\ (Js.toLowerCase mode = "buy" \/ Js.toLowerCase mode = "sell")
     end.
Proof.
  unfold updateHoldings.
  destruct (Js.notStr name || Js.notNum qty || Js.notNum price
            || Js.notStr mode) eqn:C.
  - assert (V : ~ validParams name qty price mode)
      by (rewrite validParams_check, C; discriminate).
    repeat split; intros; try discriminate; tauto.
  - apply validParams_check in C. unfold validParams in *.
    destruct (String.eqb_spec (Js.toLowerCase mode) "buy") as [B|B];
      [|destruct (String.eqb_spec (Js.toLowerCase mode) "sell") as [S|S]].
    + destruct (HoldingsModel.findOne _ hs) as [h|] eqn:F;
        [destruct (Qeq_bool _ 0 && Qeq_bool _ 0)|];
        repeat split; intros; try discriminate; try tauto; auto.
    + destruct (HoldingsModel.findOne _ hs) as [h|] eqn:F;
        [destruct (Qle_bool _ _)|];
        repeat split; intros; try discriminate; try tauto; auto.
    + repeat split; intros; try discriminate; try tauto; auto.
Qed.

(** X2. Whatever [updateHoldings] does for one instrument, the holding
    that [findOne] returns for any other name is the same before and
    after. *)
Theorem updateHoldings_other_instruments hs name qty price mode hs' out n :
  updateHoldings hs name qty price mode = Ok (hs', out) ->
  n <> Js.toUpperCase name ->
  HoldingsModel.findOne n hs' = HoldingsModel.findOne n hs.
Proof.
  intros U D. unfold updateHoldings in U.
  destruct (Js.notStr name || Js.notNum qty || Js.notNum price
            || Js.notStr mode); [discriminate|].
  destruct (Js.toLowerCase mode =? "buy")%string.
  - destruct (HoldingsModel.findOne (Js.toUpperCase name) hs) as [h|] eqn:F.
    + destruct (Qeq_bool _ 0 && Qeq_bool _ 0); [discriminate|].
      injection U as <- _.
      apply findOne_save_frame; [|exact D].
      simpl. eapply findOne_name, F.
    + injection U as <- _.
      apply findOne_create_other. simpl. congruence.
  - destruct (Js.toLowerCase mode =? "sell")%string; [|discriminate].
    destruct (HoldingsModel.findOne (Js.toUpperCase name) hs) as [h|] eqn:F.
    + destruct (Qle_bool _ _); injection U as <- _.
      * apply findOne_deleteOne_frame, D.
      * apply findOne_save_frame; [|exact D].
        simpl. eapply findOne_name, F.
    + injection U as <- _. reflexivity.
Qed.

Lemma updateHoldings_other_instruments_witness :
  HoldingsModel.findOne "INFY" [Holding.mk "INFY" 5 1450 1625 "0%" "0%"]
  = HoldingsModel.findOne "INFY"
      [Holding.mk "INFY" 5 1450 1625 "0%" "0%";
       Holding.mk "TCS" 10 100 100 "0%" "0%"].
Proof.
  apply (updateHoldings_other_instruments
           [Holding.mk "INFY" 5 1450 1625 "0%" "0%";
            Holding.mk "TCS" 10 100 100 "0%" "0%"]
           "tcs" 10 100 "sell" _ RemovedHolding).
  - reflexivity.
  - discriminate.
Defined.

(** X3. A SELL of less than the position holds: the position stays, its
    quantity goes down by the order's quantity and its average cost is
    the one it had. *)
Theorem sell_part_keeps_average name qty price mode hs h :
  validParams name qty price mode ->
  Js.toLowerCase mode = "sell" ->
  HoldingsModel.findOne (Js.toUpperCase name) hs = Some h ->
  qty < Holding.qty h ->
  exists hs' h',
    updateHoldings hs name qty price mode = Ok (hs', ReducedHolding h')
    /\ HoldingsModel.findOne (Js.toUpperCase name) hs' = Some h'
    /\ Holding.qty h' = Holding.qty h - qty
    /\ Holding.avg h' = Holding.avg h.
Proof.
  intros V L F Lt. rewrite (updateHoldings_sell hs _ _ _ _ V L), F.
  cbv zeta.
  assert (E : Qle_bool (Holding.qty h - qty) 0 = false).
  { destruct (Qle_bool (Holding.qty h - qty) 0) eqn:E; [|reflexivity].
    apply Qle_bool_iff in E. lra. }
  rewrite E. eexists _, _. split; [reflexivity|].
  split; [|split; reflexivity].
  eapply findOne_save; [exact F|]. simpl. eapply findOne_name, F.
Qed.

Lemma sell_part_keeps_average_witness :
  exists hs' h',
    updateHoldings [Holding.mk "TCS" 10 100 120 "0%" "0%"] "tcs" 4 130 "SELL"
    = Ok (hs', ReducedHolding h')
    /\ HoldingsModel.findOne "TCS" hs' = Some h'
    /\ Holding.qty h' = 10 - 4
    /\ Holding.avg h' = 100.
Proof.
  apply (sell_part_keeps_average "tcs" 4 130 "SELL"
           [Holding.mk "TCS" 10 100 120 "0%" "0%"]
           (Holding.mk "TCS" 10 100 120 "0%" "0%")).
  - unfold validParams. repeat split; discriminate.
  - reflexivity.
  - reflexivity.
  - reflexivity.
Defined.

(** X4. Buying an instrument that has no holding and then selling the
    same quantity, at whatever price, gives back the collection as it
    was. *)
Theorem buy_then_sell_restores hs name qty price price' buy sell :
  validParams name qty price buy ->
  validParams name qty price' sell ->
  Js.toLowerCase buy = "buy" ->
  Js.toLowerCase sell = "sell" ->
  HoldingsModel.findOne (Js.toUpperCase name) hs = None ->
  exists hs1 h,
    updateHoldings hs name qty price buy = Ok (hs1, CreatedHolding h)
    /\ updateHoldings hs1 name qty price' sell = Ok (hs, RemovedHolding).
Proof.
  intros Vb Vs Lb Ls F.
  rewrite (updateHoldings_buy hs _ _ _ _ Vb Lb), F. cbv zeta.
  eexists _, _. split; [reflexivity|].
  rewrite (updateHoldings_sell _ _ _ _ _ Vs Ls).
  rewrite findOne_create; [|exact F| reflexivity]. cbv zeta. simpl.
  assert (E : Qle_bool (qty - qty) 0 = true)
    by (apply Qle_bool_iff; lra).
  rewrite E, deleteOne_create; [reflexivity | exact F | reflexivity].
Qed.

Lemma buy_then_sell_restores_witness :
  exists hs1 h,
    updateHoldings [Holding.mk "INFY" 5 1450 1625 "0%" "0%"] "tcs" 10 100 "buy"
    = Ok (hs1, CreatedHolding h)
    /\ updateHoldings hs1 "tcs" 10 130 "sell"
       = Ok ([Holding.mk "INFY" 5 1450 1625 "0%" "0%"], RemovedHolding).
Proof.
  apply (buy_then_sell_restores
           [Holding.mk "INFY" 5 1450 1625 "0%" "0%"] "tcs" 10 100 130
           "buy" "sell").
  - unfold validParams. repeat split; discriminate.
  - unfold validParams. repeat split; discriminate.
  - reflexivity.
  - reflexivity.
  - reflexivity.
Defined.

(** X5. When every stored quantity is positive and the order's quantity
    is positive, every stored quantity is positive after
    [updateHoldings]: a SELL that would leave zero or less deletes the
    holding instead of saving it. *)
Theorem updateHoldings_positive hs name qty price mode hs' out :
  positiveQuantities hs ->
  0 < qty ->
  updateHoldings hs name qty price mode = Ok (hs', out) ->
  positiveQuantities hs'.
Proof.
  unfold positiveQuantities. intros P Q0 U. unfold updateHoldings in U.
  destruct (Js.notStr name || Js.notNum qty || Js.notNum price
            || Js.notStr mode); [discriminate|].
  destruct (Js.toLowerCase mode =? "buy")%string.
  - destruct (HoldingsModel.findOne (Js.toUpperCase name) hs) as [h|] eqn:F.
    + destruct (Qeq_bool _ 0 && Qeq_bool _ 0); [discriminate|].
      injection U as <- _.
      apply Forall_save; [exact P|]. simpl.
      apply findOne_In in F.
      rewrite Forall_forall in P. specialize (P h F). lra.
    + injection U as <- _.
      unfold HoldingsModel.create. apply Forall_app. split; [exact P|].
      constructor; [exact Q0 | constructor].
  - destruct (Js.toLowerCase mode =? "sell")%string; [|discriminate].
    destruct (HoldingsModel.findOne (Js.toUpperCase name) hs) as [h|] eqn:F.
    + simpl in U.
      destruct (Qle_bool (Holding.qty h - qty) 0) eqn:E; injection U as <- _.
      * apply Forall_deleteOne, P.
      * apply Forall_save; [exact P|]. simpl.
        destruct (Qlt_le_dec 0 (Holding.qty h - qty)) as [G|G]; [exact G|].
        apply Qle_bool_iff in G. congruence.
    + injection U as <- _. exact P.
Qed.

Lemma updateHoldings_positive_witness :
  positiveQuantities [Holding.mk "TCS" (10 - 4) 100 120 "0%" "0%"].
Proof.
  apply (updateHoldings_positive
           [Holding.mk "TCS" 10 100 120 "0%" "0%"] "tcs" 4 130 "sell" _
           (ReducedHolding (Holding.mk "TCS" (10 - 4) 100 120 "0%" "0%"))).
  - constructor; [reflexivity | constructor].
  - reflexivity.
  - reflexivity.
Defined.

(** X6. [updateHoldings] keeps the collection a table with one document
    per instrument, and keeps every name in upper case. *)
Theorem updateHoldings_keeps_table hs name qty price mode hs' out :
  updateHoldings hs name qty price mode = Ok (hs', out) ->
  (uniqueNames hs -> uniqueNames hs')
  /\ (upperNames hs -> upperNames hs').
Proof.
  unfold uniqueNames, upperNames. intros U. unfold updateHoldings in U.
  destruct (Js.notStr name || Js.notNum qty || Js.notNum price
            || Js.notStr mode); [discriminate|].
  destruct (Js.toLowerCase mode =? "buy")%string.
  - destruct (HoldingsModel.findOne (Js.toUpperCase name) hs) as [h|] eqn:F.
    + destruct (Qeq_bool _ 0 && Qeq_bool _ 0); [discriminate|].
      injection U as <- _.
      pose proof (findOne_name _ _ _ F) as N. split; intros H.
      * erewrite names_save; [exact H | exact F | exact N].
      * apply Forall_save; [exact H|]. simpl.
        rewrite Forall_forall in H. apply H. eapply findOne_In, F.
    + injection U as <- _. split; intros H.
      * unfold HoldingsModel.create. rewrite map_app. simpl.
        apply NoDup_app; [exact H | constructor; [intros [] | constructor] |].
        intros x I [<-|[]]. apply findOne_None in F. contradiction.
      * unfold HoldingsModel.create. apply Forall_app. split; [exact H|].
        constructor; [|constructor]. simpl. apply toUpperCase_idem.
  - destruct (Js.toLowerCase mode =? "sell")%string; [|discriminate].
    destruct (HoldingsModel.findOne (Js.toUpperCase name) hs) as [h|] eqn:F.
    + pose proof (findOne_name _ _ _ F) as N.
      destruct (Qle_bool _ _); injection U as <- _; split; intros H.
      * apply names_deleteOne_NoDup, H.
      * apply Forall_deleteOne, H.
      * erewrite names_save; [exact H | exact F | exact N].
      * apply Forall_save; [exact H|]. simpl.
        rewrite Forall_forall in H. apply H. eapply findOne_In, F.
    + injection U as <- _. tauto.
Qed.

Lemma updateHoldings_keeps_table_witness :
  uniqueNames [Holding.mk "INFY" 5 1450 1625 "0%" "0%";
               Holding.mk "TCS" 10 100 100 "0%" "0%"]
  /\ upperNames [Holding.mk "INFY" 5 1450 1625 "0%" "0%";
                 Holding.mk "TCS" 10 100 100 "0%" "0%"].
Proof.
  destruct (updateHoldings_keeps_table
              [Holding.mk "INFY" 5 1450 1625 "0%" "0%"] "tcs" 10 100 "buy"
              _ (CreatedHolding (Holding.mk "TCS" 10 100 100 "0%" "0%"))
              eq_refl) as [A B].
  split.
  - apply A. repeat constructor; simpl; tauto.
  - apply B. repeat constructor.
Defined.

(** ** The portfolio totals *)

Section Totals.

Variable f : Holding.t -> Q.

Let total (hs : list Holding.t) : Q :=
  fold_left (fun sum stock => sum + f stock) hs 0.

Lemma fold_total_acc hs : forall a,
  fold_left (fun sum stock => sum + f stock) hs a == a + total hs.
Proof.
  unfold total. induction hs as [|x r IH]; simpl; intros a; [ring|].
  rewrite (IH (a + f x)), (IH (0 + f x)). ring.
Qed.

Lemma total_cons x r : total (x :: r) == f x + total r.
Proof. unfold total at 1. simpl. rewrite fold_total_acc. ring. Qed.

Lemma total_create h hs :
  total (HoldingsModel.create h hs) == total hs + f h.
Proof.
  unfold HoldingsModel.create.
  induction hs as [|x r IH]; simpl.
  - rewrite total_cons. unfold total. simpl. ring.
  - rewrite !total_cons, IH. ring.
Qed.

Lemma total_save n h h' hs :
  HoldingsModel.findOne n hs = Some h ->
  total (HoldingsModel.save n h' hs) == total hs - f h + f h'.
Proof.
  induction hs as [|x r IH]; simpl; [discriminate|].
  destruct (Holding.name x =? n)%string.
  - intros [= ->]. rewrite !total_cons. ring.
  - intros F. rewrite !total_cons, (IH F). ring.
Qed.

Lemma total_deleteOne n h hs :
  HoldingsModel.findOne n hs = Some h ->
  total (HoldingsModel.deleteOne n hs) == total hs - f h.
Proof.
  induction hs as [|x r IH]; simpl; [discriminate|].
  destruct (Holding.name x =? n)%string.
  - intros [= ->]. rewrite !total_cons. ring.
  - intros F. rewrite !total_cons, (IH F). ring.
Qed.

End Totals.

(** X7. In exact arithmetic, a BUY that [updateHoldings] accepts raises
    the total investment the dashboard shows (the sum of avg * qty) by
    price * qty, whether it creates the holding or averages into it; the
    new total quantity of the holding must not be zero. *)
Theorem buy_adds_cost hs name qty price mode hs' out :
  validParams name qty price mode ->
  Js.toLowerCase mode = "buy" ->
  match HoldingsModel.findOne (Js.toUpperCase name) hs with
  | Some h => ~ Holding.qty h + qty == 0
  | None => True
  end ->
  updateHoldings hs name qty price mode = Ok (hs', out) ->
  totalInvestment hs' == totalInvestment hs + price * qty.
Proof.
  intros V L D U. rewrite (updateHoldings_buy hs _ _ _ _ V L) in U.
  unfold totalInvestment.
  destruct (HoldingsModel.findOne (Js.toUpperCase name) hs) as [h|] eqn:F;
    cbv zeta in U.
  - rewrite (average_is_number _ _ D) in U. injection U as <- _.
    rewrite (total_save _ _ h _ _ F). simpl. field. exact D.
  - injection U as <- _. rewrite total_create. simpl. ring.
Qed.

Lemma buy_adds_cost_witness :
  totalInvestment
    [Holding.mk "TCS" (10 + 5) ((100 * 10 + 120 * 5) / (10 + 5)) 120 "0%" "0%"]
  == totalInvestment [Holding.mk "TCS" 10 100 100 "0%" "0%"] + 120 * 5.
Proof.
  apply (buy_adds_cost [Holding.mk "TCS" 10 100 100 "0%" "0%"]
           "tcs" 5 120 "BUY" _
           (UpdatedHolding
              (Holding.mk "TCS" (10 + 5) ((100 * 10 + 120 * 5) / (10 + 5))
                 120 "0%" "0%"))).
  - unfold validParams. repeat split; discriminate.
  - reflexivity.
  - simpl. discriminate.
  - reflexivity.
Defined.

(** X8. A SELL leaves the average cost alone, so in exact arithmetic it
    lowers the total investment by avg * qty when part of the position
    is left, and by the whole cost of the position, avg * held quantity,
    when the position is deleted. *)
Theorem sell_removes_cost hs name qty price mode hs' out h :
  validParams name qty price mode ->
  Js.toLowerCase mode = "sell" ->
  HoldingsModel.findOne (Js.toUpperCase name) hs = Some h ->
  updateHoldings hs name qty price mode = Ok (hs', out) ->
  totalInvestment hs'
  == totalInvestment hs
     - Holding.avg h * (if Qle_bool (Holding.qty h - qty) 0
                        then Holding.qty h else qty).
Proof.
  intros V L F U. rewrite (updateHoldings_sell hs _ _ _ _ V L), F in U.
  cbv zeta in U. unfold totalInvestment.
  destruct (Qle_bool (Holding.qty h - qty) 0); injection U as <- _.
  - rewrite (total_deleteOne _ _ h _ F). reflexivity.
  - rewrite (total_save _ _ h _ _ F). simpl. ring.
Qed.

Lemma sell_removes_cost_witness :
  totalInvestment [Holding.mk "TCS" (10 - 4) 100 120 "0%" "0%"]
  == totalInvestment [Holding.mk "TCS" 10 100 120 "0%" "0%"] - 100 * 4.
Proof.
  apply (sell_removes_cost [Holding.mk "TCS" 10 100 120 "0%" "0%"]
           "tcs" 4 130 "sell" _
           (ReducedHolding (Holding.mk "TCS" (10 - 4) 100 120 "0%" "0%"))
           (Holding.mk "TCS" 10 100 120 "0%" "0%")).
  - unfold validParams. repeat split; discriminate.
  - reflexivity.
  - reflexivity.
  - reflexivity.
Defined.

(** X9. The first BUY of an instrument stores the order's price both as
    average cost and as last price, so it leaves the total profit and
    loss of the dashboard (current value minus investment) as it was. *)
Theorem first_buy_keeps_pnl hs name qty price mode hs' out :
  validParams name qty price mode ->
  Js.toLowerCase mode = "buy" ->
  HoldingsModel.findOne (Js.toUpperCase name) hs = None ->
  updateHoldings hs name qty price mode = Ok (hs', out) ->
  totalPnL hs' == totalPnL hs.
Proof.
  intros V L F U. rewrite (updateHoldings_buy hs _ _ _ _ V L), F in U.
  cbv zeta in U. injection U as <- _.
  unfold totalPnL, currentValue, totalInvestment.
  rewrite !total_create. simpl. ring.
Qed.

Lemma first_buy_keeps_pnl_witness :
  totalPnL [Holding.mk "INFY" 5 1450 1625 "0%" "0%";
            Holding.mk "TCS" 5 120 120 "0%" "0%"]
  == totalPnL [Holding.mk "INFY" 5 1450 1625 "0%" "0%"].
Proof.
  apply (first_buy_keeps_pnl [Holding.mk "INFY" 5 1450 1625 "0%" "0%"]
           "tcs" 5 120 "buy" _
           (CreatedHolding (Holding.mk "TCS" 5 120 120 "0%" "0%"))).
  - unfold validParams. repeat split; discriminate.
  - reflexivity.
  - reflexivity.
  - reflexivity.
Defined.

Lemma updateHoldings_errors_witness :
  updateHoldings [] "TCS" 0 100 "buy" = Throw InvalidParameters
  /\ updateHoldings [] "TCS" 10 100 "hold" = Throw (InvalidMode "hold").
Proof.
  split.
  - apply (proj1 (updateHoldings_errors [] "TCS" 0 100 "buy")).
    intros (_ & Q & _). apply Q. reflexivity.
  - apply (proj1 (proj2 (updateHoldings_errors [] "TCS" 10 100 "hold"))).
    unfold validParams. repeat split; discriminate.
Defined.

(** ** Confirm, reject and place, continued *)

Lemma save_length o' os : List.length (OrdersModel.save o' os) = List.length os.
Proof.
  induction os as [|x r IH]; simpl; [reflexivity|].
  destruct (Order._id x =? Order._id o')%nat; simpl; congruence.
Qed.

Lemma runOp_nextId db op : nextId (runOp db op) = nextId db.
Proof.
  destruct op as [id|id]; simpl.
  - unfold confirmOrder, markExecuted.
    destruct (OrdersModel.findById id (orders db)) as [o|]; [|reflexivity].
    destruct (status_eqb (Order.status o) Executed); [reflexivity|].
    destruct (updateHoldings _ _ _ _ _) as [[hs' out]|e]; [|reflexivity].
    destruct (Js.toLowerCase (Order.mode o) =? "buy")%string; [|reflexivity].
    destruct (Order.name o) as [n|]; [|reflexivity].
    destruct (HoldingsModel.findOne _ hs'); reflexivity.
  - unfold rejectOrder.
    destruct (OrdersModel.findById id (orders db)) as [o|]; [|reflexivity].
    destruct (status_eqb (Order.status o) Executed); reflexivity.
Qed.

(** X10. A confirm or a reject of one order leaves every order with
    another id as it was, and the number of stored orders and the next
    fresh id too. *)
Theorem runOp_other_orders db id id' :
  id' <> id ->
  (OrdersModel.findById id' (orders (runOp db (ConfirmOp id)))
   = OrdersModel.findById id' (orders db)
   /\ List.length (orders (runOp db (ConfirmOp id))) = List.length (orders db)
   /\ nextId (runOp db (ConfirmOp id)) = nextId db)
  /\ (OrdersModel.findById id' (orders (runOp db (RejectOp id)))
      = OrdersModel.findById id' (orders db)
      /\ List.length (orders (runOp db (RejectOp id))) = List.length (orders db)
      /\ nextId (runOp db (RejectOp id)) = nextId db).
Proof.
  intros D.
  assert (K : forall op,
             match op with ConfirmOp i | RejectOp i => i end = id ->
             OrdersModel.findById id' (orders (runOp db op))
             = OrdersModel.findById id' (orders db)
             /\ List.length (orders (runOp db op)) = List.length (orders db)
             /\ nextId (runOp db op) = nextId db).
  { intros op Eop. split; [|split; [|apply runOp_nextId]].
    - destruct (runOp_orders db op) as [E|(o & s & F & _ & E)]; rewrite E;
        [reflexivity|].
      apply findById_save_other. simpl.
      rewrite (findById_id _ _ _ F), Eop. congruence.
    - destruct (runOp_orders db op) as [E|(o & s & F & _ & E)]; rewrite E;
        [reflexivity | apply save_length]. }
  split; apply K; reflexivity.
Qed.

Lemma runOp_other_orders_witness :
  let o0 := Order.mk 0 (Some "INFY") 10 50 "buy" true false Pending in
  let o1 := Order.mk 1 (Some "TCS") 5 100 "buy" false true Pending in
  OrdersModel.findById 1 (orders (runOp (mkDb [] [o0; o1] 2) (ConfirmOp 0)))
  = Some o1.
Proof.
  intros o0 o1.
  apply (proj1 (proj1 (runOp_other_orders (mkDb [] [o0; o1] 2) 0 1
                         ltac:(discriminate)))).
Defined.

(** X11. A reject never changes a holding; on an order that is not
    executed it stores the status REJECTED, so that the order is found
    REJECTED afterwards. *)
Theorem reject_effect id db :
  holdings (fst (rejectOrder id db)) = holdings db
  /\ (forall o,
         OrdersModel.findById id (orders db) = Some o ->
         Order.status o <> Executed ->
         snd (rejectOrder id db) = RejectedOrder (Order.setStatus Rejected o)
         /\ OrdersModel.findById id (orders (fst (rejectOrder id db)))
            = Some (Order.setStatus Rejected o)).
Proof.
  unfold rejectOrder. split.
  - destruct (OrdersModel.findById id (orders db)) as [o|]; [|reflexivity].
    destruct (status_eqb (Order.status o) Executed); reflexivity.
  - intros o F S. rewrite F.
    destruct (Order.status o) eqn:St; try contradiction; simpl;
      (split; [reflexivity|]);
      (eapply findById_save; [exact F|]); simpl; eapply findById_id, F.
Qed.

Lemma reject_effect_witness :
  let o0 := Order.mk 0 (Some "INFY") 10 50 "buy" true false Pending in
  let db := mkDb [Holding.mk "TCS" 10 100 100 "0%" "0%"] [o0] 1 in
  snd (rejectOrder 0 db) = RejectedOrder (Order.setStatus Rejected o0)
  /\ OrdersModel.findById 0 (orders (fst (rejectOrder 0 db)))
     = Some (Order.setStatus Rejected o0).
Proof.
  intros o0 db.
  apply (proj2 (reject_effect 0 db) o0).
  - reflexivity.
  - discriminate.
Defined.

Lemma pendingCount_save id os o o' :
  OrdersModel.findById id os = Some o ->
  Order._id o' = id ->
  isPending o = true -> isPending o' = false ->
  S (pendingCount (OrdersModel.save o' os)) = pendingCount os.
Proof.
  intros F N P P'. unfold pendingCount.
  induction os as [|x r IH]; simpl in *; [discriminate|].
  rewrite N.
  destruct (Order._id x =? id)%nat.
  - injection F as ->. simpl. rewrite P, P'. reflexivity.
  - simpl. destruct (isPending x); simpl; rewrite <- (IH F); reflexivity.
Qed.

Lemma confirmOrder_throw id db order e :
  OrdersModel.findById id (orders db) = Some order ->
  Order.status order <> Executed ->
  updateHoldings (holdings db) (Js.orEmpty (Order.name order))
    (Order.qty order) (Order.price order) (Order.mode order) = Throw e ->
  confirmOrder id db = (db, ConfirmHoldingsFailed e order).
Proof.
  intros F S U. unfold confirmOrder. rewrite F.
  destruct (Order.status order); try contradiction; simpl; rewrite U;
    reflexivity.
Qed.

(** X13. The count of pending orders that the Orders page shows drops by
    exactly one when a pending order is rejected, and when a pending
    order is confirmed and its holdings update does not throw; it stays
    when the update throws. *)
Theorem pendingCount_after_op id db o :
  OrdersModel.findById id (orders db) = Some o ->
  Order.status o = Pending ->
  S (pendingCount (orders (runOp db (RejectOp id)))) = pendingCount (orders db)
  /\ match updateHoldings (holdings db) (Js.orEmpty (Order.name o))
             (Order.qty o) (Order.price o) (Order.mode o) with
     | Ok _ =>
         S (pendingCount (orders (runOp db (ConfirmOp id))))
         = pendingCount (orders db)
     | Throw _ =>
         pendingCount (orders (runOp db (ConfirmOp id)))
         = pendingCount (orders db)
     end.
Proof.
  intros F S0. pose proof (findById_id _ _ _ F) as N.
  assert (P : isPending o = true) by (unfold isPending; rewrite S0; reflexivity).
  assert (NE : Order.status o <> Executed) by (rewrite S0; discriminate).
  split.
  - simpl. unfold rejectOrder. rewrite F, S0. simpl.
    apply (pendingCount_save id _ o); auto.
  - destruct (updateHoldings _ _ _ _ _) as [[hs' out]|e] eqn:U.
    + simpl. rewrite (confirmOrder_ok id db o hs' out F NE U). simpl.
      apply (pendingCount_save id _ o); auto.
    + simpl.
      rewrite (confirmOrder_throw id db o e F NE U). reflexivity.
Qed.

Lemma pendingCount_after_op_witness :
  let o0 := Order.mk 0 (Some "INFY") 10 50 "buy" true false Pending in
  let db := mkDb [] [o0] 1 in
  S (pendingCount (orders (runOp db (RejectOp 0)))) = pendingCount (orders db)
  /\ S (pendingCount (orders (runOp db (ConfirmOp 0))))
     = pendingCount (orders db).
Proof.
  intros o0 db.
  exact (pendingCount_after_op 0 db o0 eq_refl eq_refl).
Defined.

(** ** The repair of holdings, continued *)

Lemma findExecutedBuy_In os o :
  In o (OrdersModel.findExecutedBuy os) <->
  In o os /\ Order.status o = Executed
  /\ Js.toLowerCase (Order.mode o) = "buy".
Proof.
  unfold OrdersModel.findExecutedBuy.
  rewrite filter_In, andb_true_iff, regexBuyI_toLowerCase, String.eqb_eq.
  destruct (Order.status o); simpl; intuition discriminate.
Qed.

Lemma repairScan_app pre : forall l st,
  repairScan (pre ++ l) st
  = match snd (repairScan pre st) with
    | None => repairScan l (fst (repairScan pre st))
    | Some e => repairScan pre st
    end.
Proof.
  induction pre as [|p r IH]; simpl; intros l st; [reflexivity|].
  destruct (repairStep st p); [apply IH | reflexivity].
Qed.

Lemma repairScan_settles os : forall st,
  Forall (fun o => Js.regexBuyI (Order.mode o) = true) os ->
  allNamed os ->
  Forall (settled (l_holdings (fst (repairScan os st)))) os.
Proof.
  unfold allNamed.
  induction os as [|o r IH]; simpl; intros st A N; [constructor|].
  inversion A as [|? ? Ro Ar]; subst. inversion N as [|? ? No Nr]; subst.
  destruct (repairStep st o) as [st'|e] eqn:S.
  - constructor; [|apply IH; assumption].
    apply repairScan_settled_mono; [assumption|].
    eapply repairStep_settles; eassumption.
  - contradiction No. apply (repairStep_throws st o). eauto.
Qed.

Lemma repairScan_covers db o :
  allNamed (OrdersModel.findExecutedBuy (orders db)) ->
  In o (orders db) ->
  Order.status o = Executed ->
  Js.toLowerCase (Order.mode o) = "buy" ->
  orderValid o ->
  HoldingsModel.findOne (Js.toUpperCase (Js.orEmpty (Order.name o)))
    (holdings (fst (repairHoldings db))) <> None.
Proof.
  intros N I S L V.
  assert (M : In o (OrdersModel.findExecutedBuy (orders db)))
    by (apply findExecutedBuy_In; auto).
  destruct (repairHoldings_scan db) as (-> & _).
  pose proof (repairScan_settles (OrdersModel.findExecutedBuy (orders db))
                {| l_holdings := holdings db; l_fixed := 0; l_missing := [] |}
                (findExecutedBuy_all (orders db)) N) as A.
  rewrite Forall_forall in A. destruct (A o M) as [H|H]; [|contradiction].
  exact H.
Qed.

(** X14. After a repair on a store whose executed BUY orders all have a
    name, every executed BUY order whose fields pass the validation of
    [updateHoldings] has a holding under its upper-cased name. *)
Theorem repair_covers_orders db o :
  allNamed (OrdersModel.findExecutedBuy (orders db)) ->
  In o (orders db) ->
  Order.status o = Executed ->
  Js.toLowerCase (Order.mode o) = "buy" ->
  orderValid o ->
  HoldingsModel.findOne (Js.toUpperCase (Js.orEmpty (Order.name o)))
    (holdings (fst (repairHoldings db))) <> None.
Proof.
  intros N I S L V.
  assert (M : In o (OrdersModel.findExecutedBuy (orders db)))
    by (apply findExecutedBuy_In; auto).
  destruct (repairHoldings_scan db) as (-> & _).
  pose proof (repairScan_settles (OrdersModel.findExecutedBuy (orders db))
                {| l_holdings := holdings db; l_fixed := 0; l_missing := [] |}
                (findExecutedBuy_all (orders db)) N) as A.
  rewrite Forall_forall in A. destruct (A o M) as [H|H]; [|contradiction].
  exact H.
Qed.

Lemma repair_covers_orders_witness :
  let o1 := Order.mk 0 (Some "tcs") 10 100 "Buy" false false Executed in
  HoldingsModel.findOne "TCS"
    (holdings (fst (repairHoldings
                      (mkDb [Holding.mk "INFY" 5 1450 1625 "0%" "0%"] [o1] 1))))
  <> None.
Proof.
  intros o1.
  apply (repair_covers_orders
           (mkDb [Holding.mk "INFY" 5 1450 1625 "0%" "0%"] [o1] 1) o1).
  - repeat constructor. discriminate.
  - left. reflexivity.
  - reflexivity.
  - reflexivity.
  - unfold orderValid, validParams. repeat split; discriminate.
Defined.

Lemma repairStep_appends st o st' :
  Js.regexBuyI (Order.mode o) = true ->
  repairStep st o = Ok st' ->
  exists added,
    l_holdings st' = (l_holdings st ++ added)%list
    /\ l_fixed st' = (l_fixed st + List.length added)%nat.
Proof.
  intros R S.
  destruct (Order.name o) as [n|] eqn:N;
    [|unfold repairStep in S; rewrite N in S; discriminate].
  destruct (repairStep_cases st o n R N)
    as [[_ E]|[(_ & _ & x & E & Eh & Ef)|(_ & _ & x & E & Eh & Ef)]];
    rewrite E in S; injection S as <-.
  - exists []. rewrite app_nil_r, Nat.add_0_r. auto.
  - exists [firstHolding o]. rewrite Eh, Ef. split; [reflexivity | simpl; lia].
  - exists []. rewrite Eh, Ef, app_nil_r, Nat.add_0_r. auto.
Qed.

Lemma repairScan_appends os : forall st,
  Forall (fun o => Js.regexBuyI (Order.mode o) = true) os ->
  exists added,
    l_holdings (fst (repairScan os st)) = (l_holdings st ++ added)%list
    /\ l_fixed (fst (repairScan os st))
       = (l_fixed st + List.length added)%nat.
Proof.
  induction os as [|o r IH]; simpl; intros st A.
  - exists []. rewrite app_nil_r, Nat.add_0_r. auto.
  - inversion A as [|? ? Ro Ar]; subst.
    destruct (repairStep st o) as [st'|e] eqn:S.
    + destruct (repairStep_appends st o st' Ro S) as (a1 & Eh1 & Ef1).
      destruct (IH st' Ar) as (a2 & Eh2 & Ef2).
      exists (a1 ++ a2)%list.
      rewrite Eh2, Ef2, Eh1, Ef1, length_app, <- app_assoc.
      split; [reflexivity | lia].
    + exists []. simpl. rewrite app_nil_r, Nat.add_0_r. auto.
Qed.

Lemma repairScan_report os : forall st,
  (l_fixed st <= List.length (l_missing st))%nat ->
  (l_fixed (fst (repairScan os st))
   <= List.length (l_missing (fst (repairScan os st))))%nat
  /\ (List.length (l_missing (fst (repairScan os st)))
      <= List.length (l_missing st) + List.length os)%nat.
Proof.
  induction os as [|o r IH]; simpl; intros st I; [lia|].
  destruct (repairStep st o) as [st'|e] eqn:Hs; [|simpl; lia].
  assert (S1 : (l_fixed st' <= List.length (l_missing st'))%nat
               /\ (List.length (l_missing st')
                   <= S (List.length (l_missing st)))%nat).
  { unfold repairStep in Hs. destruct (Order.name o) as [n|]; [|discriminate].
    destruct (HoldingsModel.findOne _ (l_holdings st));
      [injection Hs as <-; lia|].
    destruct (updateHoldings _ _ _ _ _) as [[hs' out]|e];
      injection Hs as <-; simpl; rewrite length_app; simpl; lia. }
  destruct S1 as [S1 S2]. destruct (IH st' S1). lia.
Qed.

(** X15. A repair only adds holdings: the orders and the next id stay
    and the holdings afterwards are the holdings before followed by new
    documents, also when the scan stops with an error.  The answer is a
    report exactly when every executed BUY order has a name; the report's
    [fixed] is then the number of new documents, at most the number of
    entries of [missing], itself at most [total_checked]. *)
Theorem repair_only_adds db :
  orders (fst (repairHoldings db)) = orders db
  /\ nextId (fst (repairHoldings db)) = nextId db
  /\ (reportOf (snd (repairHoldings db)) <> None
      <-> allNamed (OrdersModel.findExecutedBuy (orders db)))
  /\ exists added,
       holdings (fst (repairHoldings db)) = (holdings db ++ added)%list
       /\ match snd (repairHoldings db) with
          | RepairDone report =>
              List.length added = fixed report
              /\ (fixed report <= List.length (missing report))%nat
              /\ (List.length (missing report) <= total_checked report)%nat
          | RepairFailed e => e = TypeError
          end.
Proof.
  destruct (repairHoldings_scan db) as (Eh & Eo & En & Er).
  set (os := OrdersModel.findExecutedBuy (orders db)) in *.
  set (st := {| l_holdings := holdings db; l_fixed := 0; l_missing := [] |})
    in *.
  split; [exact Eo|]. split; [exact En|]. split.
  - rewrite Er, <- (repairScan_completes os st).
    destruct (snd (repairScan os st)); simpl;
      split; intros H; try discriminate; try reflexivity.
    contradiction H. reflexivity.
  - destruct (repairScan_appends os st (findExecutedBuy_all (orders db)))
      as (added & Ea & Ef).
    destruct (repairScan_report os st (Nat.le_refl _)) as [R1 R2].
    exists added. split; [rewrite Eh; exact Ea|].
    rewrite Er. destruct (snd (repairScan os st)) as [e|] eqn:T.
    + eapply repairScan_throws, T.
    + simpl in *. repeat split; try assumption. rewrite Ef. reflexivity.
Qed.

Lemma repair_only_adds_witness :
  reportOf (snd (repairHoldings
                   (mkDb [] [Order.mk 0 (Some "TCS") 10 100 "buy" false false
                               Executed] 1)))
  <> None.
Proof.
  apply (proj2 (proj1 (proj2 (proj2
           (repair_only_adds
              (mkDb [] [Order.mk 0 (Some "TCS") 10 100 "buy" false false
                          Executed] 1)))))).
  repeat constructor. discriminate.
Defined.

(** X28. Running the repair twice in a row: the second run leaves the
    database as the first run left it; when the first run answers with a
    report the second reports [fixed = 0], and when the first run stops
    with an error the second stops with the same error. *)
Theorem repair_twice db :
  fst (repairHoldings (fst (repairHoldings db))) = fst (repairHoldings db)
  /\ match snd (repairHoldings db),
           snd (repairHoldings (fst (repairHoldings db))) with
     | RepairDone _, RepairDone second => fixed second = 0%nat
     | RepairFailed e, RepairFailed e' => e = e'
     | _, _ => False
     end.
Proof.
  destruct (repairHoldings_scan db) as (Eh & Eo & En & Er).
  destruct (repairHoldings_scan (fst (repairHoldings db)))
    as (Eh2 & Eo2 & En2 & Er2).
  rewrite Eo, Eh in *.
  set (os := OrdersModel.findExecutedBuy (orders db)) in *.
  set (st := {| l_holdings := holdings db; l_fixed := 0; l_missing := [] |})
    in *.
  destruct (repairScan_again os st
              {| l_holdings := l_holdings (fst (repairScan os st));
                 l_fixed := 0; l_missing := [] |}
              (findExecutedBuy_all (orders db)) eq_refl) as (H1 & H2 & H3).
  simpl in H1, H2. split.
  - destruct (fst (repairHoldings (fst (repairHoldings db)))) as [h2 o2 n2],
      (fst (repairHoldings db)) as [h1 o1 n1].
    simpl in *. congruence.
  - rewrite Er, Er2, H3.
    destruct (snd (repairScan os st)); simpl; [reflexivity | exact H2].
Qed.

Lemma repairScan_found os : forall st,
  Forall (fun o => exists n,
              Order.name o = Some n
              /\ HoldingsModel.findOne (Js.toUpperCase n) (l_holdings st)
                 <> None) os ->
  repairScan os st = (st, None).
Proof.
  induction os as [|o r IH]; simpl; intros st A; [reflexivity|].
  inversion A as [|? ? (n & N & F) Ar]; subst.
  unfold repairStep. rewrite N.
  destruct (HoldingsModel.findOne _ (l_holdings st)); [|contradiction].
  apply IH, Ar.
Qed.

Lemma names_existsb n hs h :
  HoldingsModel.findOne n hs = Some h ->
  existsb (String.eqb (Js.toUpperCase n))
    (map (fun h => Js.toUpperCase (Holding.name h)) hs) = true.
Proof.
  intros F. apply existsb_exists. exists (Js.toUpperCase n). split.
  - apply in_map_iff. exists h. split.
    + rewrite (findOne_name _ _ _ F). reflexivity.
    + eapply findOne_In, F.
  - apply String.eqb_refl.
Qed.

(** X16. After a repair on a store whose executed BUY orders all have a
    name, the check of the Orders page for executed BUY orders without a
    holding, run on stored orders, returns a list, and the list only
    holds orders whose fields fail the validation of [updateHoldings]. *)
Theorem no_missing_after_repair db ordersList :
  allNamed (OrdersModel.findExecutedBuy (orders db)) ->
  incl ordersList (orders db) ->
  exists l,
    checkMissingHoldings ordersList (holdings (fst (repairHoldings db)))
    = Some l
    /\ forall o, In o l -> ~ orderValid o.
Proof.
  intros N Sub. unfold checkMissingHoldings.
  set (ex := filter _ ordersList).
  assert (Ex : forall o, In o ex ->
                         In o (OrdersModel.findExecutedBuy (orders db))).
  { intros o I. apply filter_In in I. destruct I as [I C].
    apply andb_true_iff in C. destruct C as [C1 C2].
    apply String.eqb_eq in C2. apply findExecutedBuy_In.
    split; [apply Sub, I|]. split; [|exact C2].
    destruct (Order.status o); try discriminate; reflexivity. }
  destruct (List.length ex =? 0)%nat.
  - exists []. split; [reflexivity | intros o []].
  - assert (Fa : forallb (fun order => match Order.name order with
                                       | Some _ => true
                                       | None => false
                                       end) ex = true).
    { apply forallb_forall. intros o I.
      unfold allNamed in N. rewrite Forall_forall in N.
      specialize (N o (Ex o I)). destruct (Order.name o); [reflexivity|].
      contradiction N. reflexivity. }
    rewrite Fa. eexists. split; [reflexivity|].
    intros o I V. apply filter_In in I. destruct I as [I M].
    pose proof (Ex o I) as I'. apply findExecutedBuy_In in I'.
    destruct I' as (Io & S & L).
    pose proof (repairScan_covers db o N Io S L V) as R.
    destruct (HoldingsModel.findOne _ (holdings (fst (repairHoldings db))))
      as [h|] eqn:F; [|contradiction].
    apply names_existsb in F. rewrite toUpperCase_idem in F.
    rewrite F in M. discriminate.
Qed.

Lemma no_missing_after_repair_witness :
  let bad := Order.mk 0 (Some "TCS") 0 100 "buy" false false Executed in
  exists l,
    checkMissingHoldings [bad]
      (holdings (fst (repairHoldings (mkDb [] [bad] 1)))) = Some l
    /\ forall o, In o l -> ~ orderValid o.
Proof.
  intros bad.
  apply (no_missing_after_repair (mkDb [] [bad] 1) [bad]).
  - repeat constructor. discriminate.
  - intros x H. exact H.
Defined.

(** X17. When the names of the holdings are in upper case and the check
    of the Orders page reports no missing holding for the stored orders,
    a repair changes nothing and reports [fixed = 0] and an empty
    [missing] list. *)
Theorem nothing_missing_nothing_fixed db :
  upperNames (holdings db) ->
  checkMissingHoldings (orders db) (holdings db) = Some [] ->
  repairHoldings db
  = (db, RepairDone
           {| fixed := 0; missing := [];
              total_checked :=
                List.length (OrdersModel.findExecutedBuy (orders db)) |}).
Proof.
  intros U C.
  assert (A : Forall (fun o => exists n,
                          Order.name o = Some n
                          /\ HoldingsModel.findOne (Js.toUpperCase n)
                               (holdings db) <> None)
                (OrdersModel.findExecutedBuy (orders db))).
  { apply Forall_forall. intros o I.
    pose proof I as I'. apply findExecutedBuy_In in I'.
    destruct I' as (Io & S & L).
    unfold checkMissingHoldings in C.
    set (ex := filter _ (orders db)) in C.
    assert (Ie : In o ex).
    { apply filter_In. split; [exact Io|].
      rewrite S, L. reflexivity. }
    destruct (List.length ex =? 0)%nat eqn:Z.
    { apply Nat.eqb_eq in Z. destruct ex; [contradiction | discriminate]. }
    destruct (forallb _ ex) eqn:Fa; [|discriminate].
    rewrite forallb_forall in Fa. specialize (Fa o Ie).
    destruct (Order.name o) as [n|] eqn:N; [|discriminate].
    exists n. split; [reflexivity|]. intros F.
    injection C as C.
    assert (M : In o (filter
                        (fun order =>
                           negb (existsb
                                   (String.eqb
                                      (Js.toUpperCase
                                         (Js.orEmpty (Order.name order))))
                                   (map (fun h =>
                                           Js.toUpperCase (Holding.name h))
                                      (holdings db)))) ex)).
    { apply filter_In. split; [exact Ie|]. rewrite N. simpl.
      destruct (existsb _ _) eqn:E; [|reflexivity].
      apply existsb_exists in E. destruct E as (x & Ix & Ex).
      apply String.eqb_eq in Ex. subst x.
      apply in_map_iff in Ix. destruct Ix as (h & Eh & Ih).
      unfold upperNames in U. rewrite Forall_forall in U.
      rewrite (U h Ih) in Eh.
      apply findOne_None in F. contradiction F.
      apply in_map_iff. exists h. auto. }
    rewrite C in M. contradiction. }
  unfold repairHoldings.
  rewrite (repairScan_found (OrdersModel.findExecutedBuy (orders db))
             {| l_holdings := holdings db; l_fixed := 0; l_missing := [] |} A).
  simpl. destruct db; reflexivity.
Qed.

Lemma nothing_missing_nothing_fixed_witness :
  let db := mkDb [Holding.mk "TCS" 10 100 100 "0%" "0%"]
              [Order.mk 0 (Some "tcs") 10 100 "buy" false false Executed] 1 in
  repairHoldings db
  = (db, RepairDone {| fixed := 0; missing := []; total_checked := 1 |}).
Proof.
  intros db. apply (nothing_missing_nothing_fixed db).
  - repeat constructor.
  - reflexivity.
Defined.

(** ** The repair of orders *)

Lemma findOneExecutedBuy_app n os l o :
  findOneExecutedBuy n os = Some o ->
  findOneExecutedBuy n (os ++ l)%list = Some o.
Proof.
  induction os as [|x r IH]; simpl; [discriminate|].
  destruct (_ && Js.regexBuyI (Order.mode x)
            && status_eqb (Order.status x) Executed); [trivial | exact IH].
Qed.

Lemma findOneExecutedBuy_new os id h :
  findOneExecutedBuy (Js.toUpperCase (Holding.name h))
    (OrdersModel.create (orderOfHolding id h) os) <> None.
Proof.
  unfold OrdersModel.create. induction os as [|x r IH]; simpl.
  - rewrite String.eqb_refl. simpl. discriminate.
  - destruct (_ && Js.regexBuyI (Order.mode x)
              && status_eqb (Order.status x) Executed);
      [discriminate | exact IH].
Qed.

Lemma repairOrdersStep_keeps st h n :
  findOneExecutedBuy n (o_orders st) <> None ->
  findOneExecutedBuy n (o_orders (repairOrdersStep st h)) <> None.
Proof.
  intros F. unfold repairOrdersStep.
  destruct (findOneExecutedBuy (Js.toUpperCase (Holding.name h))
              (o_orders st)); [exact F|].
  simpl. unfold OrdersModel.create.
  destruct (findOneExecutedBuy n (o_orders st)) as [o|] eqn:E;
    [|contradiction].
  rewrite (findOneExecutedBuy_app _ _ _ _ E). discriminate.
Qed.

Lemma repairOrdersLoop_keeps hs : forall st n,
  findOneExecutedBuy n (o_orders st) <> None ->
  findOneExecutedBuy n (o_orders (fold_left repairOrdersStep hs st)) <> None.
Proof.
  induction hs as [|h r IH]; simpl; intros st n F; [exact F|].
  apply IH, repairOrdersStep_keeps, F.
Qed.

Lemma repairOrdersLoop_covers hs : forall st,
  Forall (fun h => findOneExecutedBuy (Js.toUpperCase (Holding.name h))
                     (o_orders (fold_left repairOrdersStep hs st)) <> None)
    hs.
Proof.
  induction hs as [|h r IH]; simpl; intros st; constructor; [|apply IH].
  apply repairOrdersLoop_keeps. unfold repairOrdersStep.
  destruct (findOneExecutedBuy (Js.toUpperCase (Holding.name h))
              (o_orders st)) eqn:E.
  - rewrite E. discriminate.
  - simpl. apply findOneExecutedBuy_new.
Qed.

Lemma repairOrdersLoop_found hs : forall st,
  Forall (fun h => findOneExecutedBuy (Js.toUpperCase (Holding.name h))
                     (o_orders st) <> None) hs ->
  fold_left repairOrdersStep hs st = st.
Proof.
  induction hs as [|h r IH]; simpl; intros st A; [reflexivity|].
  inversion A as [|? ? Fh Ar]; subst.
  assert (E : repairOrdersStep st h = st).
  { unfold repairOrdersStep.
    destruct (findOneExecutedBuy _ (o_orders st));
      [reflexivity | contradiction]. }
  rewrite E. apply IH, Ar.
Qed.

Lemma repairOrdersLoop_appends hs : forall st,
  exists added,
    o_orders (fold_left repairOrdersStep hs st) = (o_orders st ++ added)%list
    /\ o_created (fold_left repairOrdersStep hs st)
       = (o_created st + List.length added)%nat
    /\ o_nextId (fold_left repairOrdersStep hs st)
       = (o_nextId st + List.length added)%nat
    /\ List.length (o_createdOrders (fold_left repairOrdersStep hs st))
       = (List.length (o_createdOrders st) + List.length added)%nat
    /\ (List.length added <= List.length hs)%nat
    /\ Forall (fun a => exists id h, In h hs /\ a = orderOfHolding id h) added.
Proof.
  induction hs as [|h r IH]; simpl; intros st.
  - exists []. rewrite app_nil_r, !Nat.add_0_r. repeat split; auto.
  - destruct (IH (repairOrdersStep st h))
      as (added & Eo & Ec & En & El & Le & All).
    assert (All' : Forall (fun a => exists id h0,
                               (h = h0 \/ In h0 r) /\ a = orderOfHolding id h0)
                     added).
    { eapply Forall_impl; [|exact All].
      intros a (id & h0 & I & E). exists id, h0. auto. }
    unfold repairOrdersStep in *.
    destruct (findOneExecutedBuy (Js.toUpperCase (Holding.name h))
                (o_orders st)).
    + exists added. repeat split; auto.
    + simpl in *. exists (orderOfHolding (o_nextId st) h :: added).
      unfold OrdersModel.create in Eo. rewrite <- app_assoc in Eo.
      rewrite length_app in El. simpl in *.
      repeat split; try lia; [exact Eo|].
      constructor; [|exact All'].
      exists (o_nextId st), h. auto.
Qed.

(** X19. After [/repair-orders], every holding has an executed BUY
    order under its upper-cased name. *)
Theorem repairOrders_covers_holdings db h :
  In h (holdings db) ->
  findOneExecutedBuy (Js.toUpperCase (Holding.name h))
    (orders (fst (repairOrders db))) <> None.
Proof.
  intros I. unfold repairOrders. simpl.
  pose proof (repairOrdersLoop_covers (holdings db)
                {| o_orders := orders db; o_nextId := nextId db;
                   o_created := 0; o_createdOrders := [] |}) as A.
  rewrite Forall_forall in A. apply A, I.
Qed.

Lemma repairOrders_covers_holdings_witness :
  findOneExecutedBuy "TCS"
    (orders (fst (repairOrders
                    (mkDb [Holding.mk "tcs" 10 100 120 "0%" "0%"] [] 0))))
  <> None.
Proof.
  apply (repairOrders_covers_holdings
           (mkDb [Holding.mk "tcs" 10 100 120 "0%" "0%"] [] 0)
           (Holding.mk "tcs" 10 100 120 "0%" "0%")).
  left. reflexivity.
Defined.

(** X20. Running [/repair-orders] twice in a row: the second run creates
    nothing and leaves the database as the first run left it. *)
Theorem repairOrders_twice db :
  created (snd (repairOrders (fst (repairOrders db)))) = 0%nat
  /\ createdOrders (snd (repairOrders (fst (repairOrders db)))) = []
  /\ fst (repairOrders (fst (repairOrders db))) = fst (repairOrders db).
Proof.
  unfold repairOrders. simpl.
  set (st1 := fold_left repairOrdersStep (holdings db)
                {| o_orders := orders db; o_nextId := nextId db;
                   o_created := 0; o_createdOrders := [] |}).
  pose proof (repairOrdersLoop_covers (holdings db)
                {| o_orders := orders db; o_nextId := nextId db;
                   o_created := 0; o_createdOrders := [] |}) as A.
  fold st1 in A.
  rewrite (repairOrdersLoop_found (holdings db)
             {| o_orders := o_orders st1; o_nextId := o_nextId st1;
                o_created := 0; o_createdOrders := [] |} A).
  simpl. auto.
Qed.

Lemma repairOrders_only_adds_aux db :
  holdings (fst (repairOrders db)) = holdings db
  /\ exists added,
       orders (fst (repairOrders db)) = (orders db ++ added)%list
       /\ Forall (fun a => exists id h,
                      In h (holdings db) /\ a = orderOfHolding id h) added.
Proof.
  unfold repairOrders. simpl. split; [reflexivity|].
  destruct (repairOrdersLoop_appends (holdings db)
              {| o_orders := orders db; o_nextId := nextId db;
                 o_created := 0; o_createdOrders := [] |})
    as (added & Eo & _ & _ & _ & _ & All).
  simpl in *. exists added. auto.
Qed.

(** X21. [/repair-orders] only adds orders: the holdings stay, the
    orders afterwards are the orders before followed by exactly [created]
    new ones, one entry of the answer's list for each, at most one per
    holding, and each new order is the executed manual BUY order of a
    holding, with the holding's quantity and its average cost as price. *)
Theorem repairOrders_only_adds db :
  holdings (fst (repairOrders db)) = holdings db
  /\ exists added,
       orders (fst (repairOrders db)) = (orders db ++ added)%list
       /\ List.length added = created (snd (repairOrders db))
       /\ List.length (createdOrders (snd (repairOrders db)))
          = created (snd (repairOrders db))
       /\ (created (snd (repairOrders db))
           <= total_holdings (snd (repairOrders db)))%nat
       /\ Forall (fun a => exists id h,
                      In h (holdings db) /\ a = orderOfHolding id h) added.
Proof.
  unfold repairOrders. simpl. split; [reflexivity|].
  destruct (repairOrdersLoop_appends (holdings db)
              {| o_orders := orders db; o_nextId := nextId db;
                 o_created := 0; o_createdOrders := [] |})
    as (added & Eo & Ec & En & El & Le & All).
  simpl in *. exists added. rewrite Ec, El. repeat split; auto.
Qed.

(** X22. When the names of the holdings are in upper case, the orders
    that [/repair-orders] creates give [/repair-holdings] nothing to do:
    a repair of holdings after a repair of orders builds the same
    holdings and reports the same [fixed], or stops with an error as it
    does without it. *)
Theorem repairs_do_not_interfere db :
  upperNames (holdings db) ->
  holdings (fst (repairHoldings (fst (repairOrders db))))
  = holdings (fst (repairHoldings db))
  /\ option_map fixed (reportOf (snd (repairHoldings (fst (repairOrders db)))))
     = option_map fixed (reportOf (snd (repairHoldings db))).
Proof.
  intros U.
  destruct (repairOrders_only_adds_aux db) as (Eh & added & Eo & All).
  destruct (repairHoldings_scan db) as (H1 & _ & _ & R1).
  destruct (repairHoldings_scan (fst (repairOrders db))) as (H2 & _ & _ & R2).
  rewrite Eh, Eo in *.
  unfold OrdersModel.findExecutedBuy in H2, R2.
  rewrite filter_app in H2, R2.
  fold (OrdersModel.findExecutedBuy (orders db)) in H2, R2.
  fold (OrdersModel.findExecutedBuy added) in H2, R2.
  set (os := OrdersModel.findExecutedBuy (orders db)) in *.
  set (st0 := {| l_holdings := holdings db; l_fixed := 0; l_missing := [] |})
    in *.
  assert (E : repairScan (os ++ OrdersModel.findExecutedBuy added) st0
              = repairScan os st0).
  { rewrite repairScan_app.
    destruct (snd (repairScan os st0)) eqn:T; [reflexivity|].
    rewrite repairScan_found; [destruct (repairScan os st0); simpl in *;
                               congruence|].
    apply Forall_forall. intros a I.
    apply findExecutedBuy_In in I. destruct I as (I & _).
    rewrite Forall_forall in All. destruct (All a I) as (id & h & Ih & ->).
    exists (Js.toUpperCase (Holding.name h)). split; [reflexivity|].
    rewrite toUpperCase_idem.
    unfold upperNames in U. rewrite Forall_forall in U. rewrite (U h Ih).
    destruct (HoldingsModel.findOne (Holding.name h) (holdings db))
      as [x|] eqn:F.
    - rewrite (repairScan_keeps os st0 (Holding.name h) x
                 (findExecutedBuy_all (orders db)) F).
      discriminate.
    - apply findOne_None in F. contradiction F.
      apply in_map_iff. exists h. auto. }
  rewrite E in H2, R2. split; [congruence|].
  rewrite R1, R2. destruct (snd (repairScan os st0)); reflexivity.
Qed.

Lemma repairs_do_not_interfere_witness :
  let db := mkDb [Holding.mk "TCS" 10 100 120 "0%" "0%"]
              [Order.mk 0 (Some "infy") 5 50 "buy" false false Executed] 1 in
  holdings (fst (repairHoldings (fst (repairOrders db))))
  = holdings (fst (repairHoldings db))
  /\ option_map fixed (reportOf (snd (repairHoldings (fst (repairOrders db)))))
     = option_map fixed (reportOf (snd (repairHoldings db))).
Proof.
  intros db. apply (repairs_do_not_interfere db). repeat constructor.
Defined.

(** ** Seeding *)

(** X23. Whatever the database held, [/seedHoldings] leaves five holdings
    and five orders that are in step: the names of the holdings are
    distinct and in upper case, the quantities positive, and neither
    repair finds anything to do. *)
Theorem seed_in_step db :
  let seeded := fst (seedHoldings db) in
  uniqueNames (holdings seeded)
  /\ upperNames (holdings seeded)
  /\ positiveQuantities (holdings seeded)
  /\ List.length (holdings seeded) = holdings_count (snd (seedHoldings db))
  /\ List.length (orders seeded) = orders_count (snd (seedHoldings db))
  /\ repairHoldings seeded
     = (seeded,
        RepairDone {| fixed := 0; missing := []; total_checked := 5 |})
  /\ repairOrders seeded
     = (seeded, {| created := 0; createdOrders := []; total_holdings := 5 |}).
Proof.
  destruct db as [hs os n]. cbv zeta.
  split; [|split; [|split]].
  - unfold uniqueNames. simpl.
    repeat (constructor; [simpl; intuition discriminate|]). constructor.
  - unfold upperNames. simpl. repeat constructor.
  - unfold positiveQuantities. simpl. repeat constructor.
  - repeat split; reflexivity.
Qed.

(** ** Deleting orders *)

Lemma findByIdAndDelete_other id id' os :
  id' <> id ->
  OrdersModel.findById id' (findByIdAndDelete id os)
  = OrdersModel.findById id' os.
Proof.
  intros D. induction os as [|x r IH]; simpl; [reflexivity|].
  destruct (Nat.eqb_spec (Order._id x) id) as [E|E]; simpl.
  - destruct (Nat.eqb_spec (Order._id x) id'); [congruence | reflexivity].
  - rewrite IH. reflexivity.
Qed.

(** X24. [DELETE /order/:id] does not undo what the order did: the
    holdings stay as they are.  Every order with another id stays; an
    unknown id changes nothing; a known id removes exactly one order. *)
Theorem deleteOrder_effect id db :
  holdings (deleteOrder id db) = holdings db
  /\ (forall id', id' <> id ->
        OrdersModel.findById id' (orders (deleteOrder id db))
        = OrdersModel.findById id' (orders db))
  /\ match OrdersModel.findById id (orders db) with
     | None => deleteOrder id db = db
     | Some _ =>
         S (List.length (orders (deleteOrder id db)))
         = List.length (orders db)
     end.
Proof.
  unfold deleteOrder. simpl. split; [reflexivity|]. split.
  - intros id' D. apply findByIdAndDelete_other, D.
  - destruct db as [hs os n]. unfold withOrders. simpl.
    induction os as [|x r IH]; simpl; [reflexivity|].
    destruct (Order._id x =? id)%nat; simpl; [reflexivity|].
    destruct (OrdersModel.findById id r).
    + rewrite IH. reflexivity.
    + injection IH as ->. reflexivity.
Qed.

(** X25. [DELETE /orders/cleanup] leaves the holdings alone and keeps the
    orders it does not match in their order; [deletedCount] and the
    orders left add up to the orders before; every order left has a name
    that is neither empty nor "-" and a price that is not zero; every
    order that passes the validation of [updateHoldings] and is not named
    "-" is kept; a second cleanup deletes nothing. *)
Theorem cleanupOrders_effect db :
  holdings (fst (cleanupOrders db)) = holdings db
  /\ (snd (cleanupOrders db) + List.length (orders (fst (cleanupOrders db)))
      = List.length (orders db))%nat
  /\ Forall (fun o => (exists n, Order.name o = Some n /\ n <> "" /\ n <> "-")
                      /\ ~ Order.price o == 0)
       (orders (fst (cleanupOrders db)))
  /\ (forall o, In o (orders db) -> orderValid o ->
                Order.name o <> Some "-" ->
                In o (orders (fst (cleanupOrders db))))
  /\ cleanupOrders (fst (cleanupOrders db)) = (fst (cleanupOrders db), 0%nat).
Proof.
  unfold cleanupOrders. simpl.
  assert (K : forall o, cleanupMatches o = false <->
                        (exists n, Order.name o = Some n /\ n <> "" /\ n <> "-")
                        /\ ~ Order.price o == 0).
  { intros o. unfold cleanupMatches.
    assert (N : Qeq_bool (Order.price o) 0 = false <-> ~ Order.price o == 0).
    { rewrite <- Qeq_bool_iff.
      destruct (Qeq_bool (Order.price o) 0); intuition congruence. }
    rewrite orb_false_iff, N.
    destruct (Order.name o) as [n|].
    - rewrite orb_false_iff, !String.eqb_neq. split.
      + intros [[A B] C]. split; [exists n; auto | exact C].
      + intros [(m & [= <-] & A & B) C]. auto.
    - split; [intros [X _]; discriminate | intros [(m & X & _) _]; discriminate]. }
  split; [reflexivity|]. split; [|split; [|split]].
  - induction (orders db) as [|x r IH]; simpl; [reflexivity|].
    destruct (cleanupMatches x); simpl; lia.
  - apply Forall_forall. intros o I. apply filter_In in I.
    destruct I as [_ I]. apply negb_true_iff in I. apply K, I.
  - intros o I V D. apply filter_In. split; [exact I|].
    apply negb_true_iff, K. unfold orderValid, validParams in V.
    destruct V as (V1 & _ & V3 & _). split; [|exact V3].
    destruct (Order.name o) as [n|]; [|contradiction V1; reflexivity].
    exists n. simpl in V1. repeat split; [exact V1 | congruence].
  - assert (F : forall l,
               filter (fun o => negb (cleanupMatches o))
                 (filter (fun o => negb (cleanupMatches o)) l)
               = filter (fun o => negb (cleanupMatches o)) l
               /\ filter cleanupMatches
                    (filter (fun o => negb (cleanupMatches o)) l) = []).
    { induction l as [|x r [IH1 IH2]]; simpl; [auto|].
      destruct (cleanupMatches x) eqn:E; simpl; [auto|].
      rewrite E. simpl. rewrite IH1, IH2. auto. }
    destruct (F (orders db)) as [F1 F2].
    unfold withOrders. simpl. rewrite F1, F2. reflexivity.
Qed.

Lemma cleanupOrders_effect_witness :
  let good := Order.mk 0 (Some "TCS") 10 100 "buy" false false Executed in
  let bad := Order.mk 1 None 10 100 "buy" false false Executed in
  In good (orders (fst (cleanupOrders (mkDb [] [bad; good] 2)))).
Proof.
  intros good bad.
  apply (proj1 (proj2 (proj2 (proj2
           (cleanupOrders_effect (mkDb [] [bad; good] 2))))) good).
  - right. left. reflexivity.
  - unfold orderValid, validParams. repeat split; discriminate.
  - discriminate.
Defined.

(** ** The source badge of the Orders page *)


Lemma deleteOrder_effect_witness :
  let o0 := Order.mk 0 (Some "INFY") 10 50 "buy" false false Executed in
  let o1 := Order.mk 1 (Some "TCS") 5 100 "buy" false false Executed in
  let db := mkDb [Holding.mk "INFY" 10 50 50 "0%" "0%"] [o0; o1] 2 in
  OrdersModel.findById 1 (orders (deleteOrder 0 db))
  = OrdersModel.findById 1 (orders db).
Proof.
  intros o0 o1 db.
  apply (proj1 (proj2 (deleteOrder_effect 0 db)) 1%nat). discriminate.
Defined.
